(** * Planetary Computer to S3 indexer: a model of [handler.py]

    The task is a Lambda handler that queries a STAC catalog, transforms every
    returned item (either re-hosting its GeoTIFF assets or trimming its links),
    appends the items to the incoming payload and returns the payload inline or
    through an S3 pointer.

    The development follows the source function by function:
    - Python values, dictionaries and [json.dumps] as far as the handler
      observes them;
    - [datetime.fromisoformat], [isoformat] and [timedelta(days=1)];
    - a state-and-exception monad for the handler, whose state holds the
      mutable [event] dictionary, the store of link objects, the state of the
      outside world and the trace of log records and collaborator calls;
    - the six functions of the module, in the order they are called, over a
      class of deployments that supplies the environment and the
      collaborators (catalog, signing, network, object store, clock);
    - a scripted deployment on which the model runs.

    The properties come next: the metadata-only transform, the date of the
    query, what the pipeline preserves (triples over the monad), the fatal
    path, the features of the payload, the validation of the request, the
    size check and the asset downloads; and last the runs in the scripted
    world that instantiate them.  *)

From Stdlib Require Import ZArith List String Ascii Bool Arith Lia DecimalString.
Import ListNotations.
Local Open Scope list_scope.
Local Open Scope string_scope.
Set Warnings "-register-all".

(** ** Text *)

Module Text.

(** The double quote character, code point 34. *)
Definition dquote : ascii := "034"%char.
Definition backslash : ascii := "092"%char.

Definition str1 (c : ascii) : string := String c EmptyString.

(** Python's [needle in hay] on [str]. *)
Fixpoint contains (needle hay : string) : bool :=
  if String.prefix needle hay then true
  else match hay with
       | EmptyString => false
       | String _ t => contains needle t
       end.

(** [len(s)] as an integer. *)
Fixpoint len_acc (s : string) (acc : Z) : Z :=
  match s with
  | EmptyString => acc
  | String _ t => len_acc t (acc + 1)
  end.
Definition len (s : string) : Z := len_acc s 0.

(** [str(n)] for an integer. *)
Definition of_Z (z : Z) : string := NilZero.string_of_int (Z.to_int z).

Definition of_nat (n : nat) : string := of_Z (Z.of_nat n).

Definition hex_digit (n : N) : ascii :=
  match n with
  | 0%N => "0" | 1%N => "1" | 2%N => "2" | 3%N => "3" | 4%N => "4"
  | 5%N => "5" | 6%N => "6" | 7%N => "7" | 8%N => "8" | 9%N => "9"
  | 10%N => "a" | 11%N => "b" | 12%N => "c" | 13%N => "d" | 14%N => "e"
  | _ => "f"
  end%char.

Definition squote : ascii := "'"%char.

Fixpoint has_char (c : ascii) (s : string) : bool :=
  match s with
  | EmptyString => false
  | String x t => Ascii.eqb x c || has_char c t
  end.

(** [c.isprintable()] for a code point below 256: the controls, the
    no-break space and the soft hyphen are not. *)
Definition printable (c : ascii) : bool :=
  let n := N_of_ascii c in
  ((32 <=? n) && (n <? 127) || (161 <=? n) && negb (n =? 173))%N.

Definition repr_char (q c : ascii) : string :=
  let n := N_of_ascii c in
  if Ascii.eqb c q || Ascii.eqb c backslash then String backslash (str1 c)
  else if (n =? 9)%N then String backslash "t"
  else if (n =? 10)%N then String backslash "n"
  else if (n =? 13)%N then String backslash "r"
  else if printable c then str1 c
  else String backslash
         ("x" ++ String (hex_digit (n / 16)) (str1 (hex_digit (n mod 16)))).

Fixpoint repr_body (q : ascii) (s : string) : string :=
  match s with
  | EmptyString => ""
  | String c t => repr_char q c ++ repr_body q t
  end.

(** [repr(s)] of a [str]: between single quotes, or between double quotes
    when the text holds a single quote and no double quote; the enclosing
    quote and the backslash are escaped, tab, newline and return are
    written by letter, and the other characters that are not printable as
    [\xNN]. *)
Definition repr (s : string) : string :=
  let q := if has_char squote s && negb (has_char dquote s)
           then dquote else squote in
  String q (repr_body q s ++ str1 q).

(** [n] written with at least [width] decimal digits ([f"{n:0{width}d}"]
    for a non-negative [n]). *)
Fixpoint zeros (n : nat) : string :=
  match n with O => "" | S k => String "0"%char (zeros k) end.
Definition pad (width : nat) (z : Z) : string :=
  let s := of_Z z in zeros (width - String.length s) ++ s.

Fixpoint repeat_char (c : ascii) (n : nat) : string :=
  match n with O => "" | S k => String c (repeat_char c k) end.

End Text.

(** ** Python values

    The fragment of Python's value universe the handler can observe: what
    [json.loads] produces, plus tuples, which a dictionary can hold as values
    or as keys and which make [json.dumps] raise when used as keys.  A [str]
    is a sequence of code points below 256; a float carries its [repr]. *)

Inductive key : Type :=
| KStr (s : string)
| KInt (z : Z)
| KTuple (ks : list key).

Inductive value : Type :=
| VNone
| VBool (b : bool)
| VInt (z : Z)
| VFloat (repr : string)
| VStr (s : string)
| VList (l : list value)
| VTuple (l : list value)
| VDict (d : list (key * value)).

(** A [dict] in insertion order. *)
Definition dict := list (key * value).

Module Py.

Fixpoint key_eqb (a b : key) : bool :=
  match a, b with
  | KStr s, KStr t => String.eqb s t
  | KInt x, KInt y => Z.eqb x y
  | KTuple xs, KTuple ys =>
      (fix go (xs ys : list key) : bool :=
         match xs, ys with
         | [], [] => true
         | x :: xs', y :: ys' => key_eqb x y && go xs' ys'
         | _, _ => false
         end) xs ys
  | _, _ => false
  end.

(** [d.get(k)], [None] of the option when the key is absent. *)
Fixpoint get (k : key) (d : dict) : option value :=
  match d with
  | [] => None
  | (k', v) :: rest => if key_eqb k' k then Some v else get k rest
  end.

(** [k in d]. *)
Definition mem (k : key) (d : dict) : bool :=
  match get k d with Some _ => true | None => false end.

(** [d[k] = v]: the slot is overwritten where the key exists, and a new
    slot is added at the end otherwise. *)
Fixpoint set (k : key) (v : value) (d : dict) : dict :=
  match d with
  | [] => [(k, v)]
  | (k', v') :: rest =>
      if key_eqb k' k then (k', v) :: rest else (k', v') :: set k v rest
  end.

(** Truth value of an object, as [if x:] and [not x] test it. *)
Definition truthy (v : value) : bool :=
  match v with
  | VNone => false
  | VBool b => b
  | VInt z => negb (Z.eqb z 0)
  | VFloat r => negb (String.eqb r "0.0" || String.eqb r "-0.0")
  | VStr s => negb (String.eqb s "")
  | VList l => match l with [] => false | _ => true end
  | VTuple l => match l with [] => false | _ => true end
  | VDict d => match d with [] => false | _ => true end
  end.

(** [type(v).__name__]. *)
Definition type_name (v : value) : string :=
  match v with
  | VNone => "NoneType"
  | VBool _ => "bool"
  | VInt _ => "int"
  | VFloat _ => "float"
  | VStr _ => "str"
  | VList _ => "list"
  | VTuple _ => "tuple"
  | VDict _ => "dict"
  end.

End Py.

(** ** [json.dumps(obj, default=str)]

    Default separators, [ensure_ascii=True], [skipkeys=False].  Every value of
    the fragment is serializable, so [default] is never called; the one
    failure is a dictionary key that is not a [str] or a number. *)

Module Json.
Import Text.

Definition escape_char (c : ascii) : string :=
  let n := N_of_ascii c in
  if Ascii.eqb c dquote then String backslash (str1 dquote)
  else if Ascii.eqb c backslash then String backslash (str1 backslash)
  else if (n =? 10)%N then String backslash "n"
  else if (n =? 13)%N then String backslash "r"
  else if (n =? 9)%N then String backslash "t"
  else if (n =? 8)%N then String backslash "b"
  else if (n =? 12)%N then String backslash "f"
  else if ((32 <=? n) && (n <=? 126))%N then str1 c
  else String backslash
         ("u00" ++ String (hex_digit (n / 16)) (str1 (hex_digit (n mod 16)))).

Fixpoint escape (s : string) : string :=
  match s with
  | EmptyString => ""
  | String c t => escape_char c ++ escape t
  end.

(** A [str] as a JSON string literal. *)
Definition quote (s : string) : string :=
  String dquote (escape s ++ str1 dquote).

(** The text of a dictionary key; [None] stands for the [TypeError]
    "keys must be str, int, float, bool or None". *)
Definition dumps_key (k : key) : option string :=
  match k with
  | KStr s => Some (quote s)
  | KInt z => Some (quote (of_Z z))
  | KTuple _ => None
  end.

(** A float: its [repr], and with [allow_nan] the JavaScript names of the
    values that are not finite. *)
Definition dumps_float (r : string) : string :=
  if String.eqb r "inf" then "Infinity"
  else if String.eqb r "-inf" then "-Infinity"
  else if String.eqb r "nan" then "NaN"
  else r.

Fixpoint dumps (v : value) : option string :=
  match v with
  | VNone => Some "null"
  | VBool true => Some "true"
  | VBool false => Some "false"
  | VInt z => Some (of_Z z)
  | VFloat r => Some (dumps_float r)
  | VStr s => Some (quote s)
  | VList l | VTuple l =>
      match
        (fix items (l : list value) : option string :=
           match l with
           | [] => Some ""
           | [x] => dumps x
           | x :: rest =>
               match dumps x, items rest with
               | Some sx, Some sr => Some (sx ++ ", " ++ sr)
               | _, _ => None
               end
           end) l
      with
      | Some body => Some ("[" ++ body ++ "]")
      | None => None
      end
  | VDict d =>
      match
        (fix members (d : list (key * value)) : option string :=
           match d with
           | [] => Some ""
           | (k, x) :: rest =>
               match dumps_key k, dumps x, members rest with
               | Some sk, Some sx, Some sr =>
                   Some (sk ++ ": " ++ sx
                            ++ match rest with [] => "" | _ => ", " ++ sr end)
               | _, _, _ => None
               end
           end) d
      with
      | Some body => Some ("{" ++ body ++ "}")
      | None => None
      end
  end.

(** [len(text.encode("utf-8"))]: with [ensure_ascii] the text is ASCII, one
    byte per character. *)
Definition utf8_len (text : string) : Z := len text.

End Json.

(** ** [datetime]

    A [datetime] with its fields; [utcoffset] is the text [isoformat] appends
    for an aware value and is empty for a naive one. *)

Module Datetime.
Import Text.

Record datetime : Type := mkDatetime {
  year : Z; month : Z; day : Z;
  hour : Z; minute : Z; second : Z; microsecond : Z;
  utcoffset : string
}.

Definition is_leap (y : Z) : bool :=
  ((y mod 4 =? 0) && negb (y mod 100 =? 0) || (y mod 400 =? 0))%Z.

Definition days_in_month (y m : Z) : Z :=
  (if m =? 2 then (if is_leap y then 29 else 28)
   else if (m =? 4) || (m =? 6) || (m =? 9) || (m =? 11) then 30
   else 31)%Z.

Definition valid_date (y m d : Z) : bool :=
  ((1 <=? y) && (y <=? 9999) && (1 <=? m) && (m <=? 12)
   && (1 <=? d) && (d <=? days_in_month y m))%Z.

(** [date.toordinal()]: the day's number, day 1 being 0001-01-01. *)
Definition days_before_year (y : Z) : Z :=
  ((y - 1) * 365 + (y - 1) / 4 - (y - 1) / 100 + (y - 1) / 400)%Z.

Definition days_before_month (y m : Z) : Z :=
  (match m with
   | 1 => 0 | 2 => 31 | 3 => 59 | 4 => 90 | 5 => 120 | 6 => 151
   | 7 => 181 | 8 => 212 | 9 => 243 | 10 => 273 | 11 => 304 | _ => 334
   end + (if (2 <? m) && is_leap y then 1 else 0))%Z.

Definition toordinal (y m d : Z) : Z :=
  (days_before_year y + days_before_month y m + d)%Z.

Definition digit_char (z : Z) : ascii := ascii_of_N (Z.to_N (z + 48)).

Definition decimal_digits : list Z := [0; 1; 2; 3; 4; 5; 6; 7; 8; 9]%Z.

Definition digit (c : ascii) : option Z :=
  let n := Z.of_N (N_of_ascii c) in
  if ((48 <=? n) && (n <=? 57))%Z then Some (n - 48)%Z else None.

Definition is_dash (c : ascii) : bool := Ascii.eqb c "-"%char.

(** The fields of a text of the shape [dddd-dd-dd]; [None] for any other
    text. *)
Definition date_fields (s : string) : option (Z * Z * Z) :=
  match s with
  | String y1 (String y2 (String y3 (String y4 (String s1
    (String m1 (String m2 (String s2 (String d1 (String d2 EmptyString))))))))) =>
      match digit y1, digit y2, digit y3, digit y4,
            digit m1, digit m2, digit d1, digit d2 with
      | Some a, Some b, Some c, Some d, Some e, Some f, Some g, Some h =>
          if is_dash s1 && is_dash s2
          then Some (1000 * a + 100 * b + 10 * c + d, 10 * e + f, 10 * g + h)%Z
          else None
      | _, _, _, _, _, _, _, _ => None
      end
  | _ => None
  end.

Definition midnight (y m d : Z) : datetime :=
  mkDatetime y m d 0 0 0 0 "".

(** The [ValueError]s of [datetime.fromisoformat]: the text is no ISO 8601
    date or datetime, or it is one and the constructor refuses a field
    (the offset of the time zone is the last of them, given with the
    [repr] of its [timedelta]). *)
Inductive iso_error : Type :=
| InvalidIsoformat
| YearOutOfRange (y : Z)
| MonthOutOfRange
| DayOutOfRange
| HourOutOfRange
| MinuteOutOfRange
| SecondOutOfRange
| MicrosecondOutOfRange
| OffsetOutOfRange (delta : string).

(** The message of the [ValueError], for the text [s] given. *)
Definition iso_error_text (s : string) (e : iso_error) : string :=
  match e with
  | InvalidIsoformat => "Invalid isoformat string: " ++ repr s
  | YearOutOfRange y => "year " ++ of_Z y ++ " is out of range"
  | MonthOutOfRange => "month must be in 1..12"
  | DayOutOfRange => "day is out of range for month"
  | HourOutOfRange => "hour must be in 0..23"
  | MinuteOutOfRange => "minute must be in 0..59"
  | SecondOutOfRange => "second must be in 0..59"
  | MicrosecondOutOfRange => "microsecond must be in 0..999999"
  | OffsetOutOfRange delta =>
      "offset must be a timedelta strictly between -timedelta(hours=24) "
        ++ "and timedelta(hours=24), not " ++ delta ++ "."
  end.

Section Parse.
(** [datetime.fromisoformat] on the texts that are not of the shape
    [dddd-dd-dd] (texts with a time part, and the further ISO 8601 forms
    newer interpreters accept). *)
Variable fromisoformat_other : string -> iso_error + datetime.

(** [datetime.fromisoformat(s)]; [inl e] is the [ValueError] it raises.
    A text of the shape [dddd-dd-dd] is parsed and its fields go to the
    constructor, which checks the year, the month and the day in this
    order. *)
Definition fromisoformat (s : string) : iso_error + datetime :=
  match date_fields s with
  | Some (y, m, d) =>
      (if negb ((1 <=? y) && (y <=? 9999)) then inl (YearOutOfRange y)
       else if negb ((1 <=? m) && (m <=? 12)) then inl MonthOutOfRange
       else if negb ((1 <=? d) && (d <=? days_in_month y m))
       then inl DayOutOfRange
       else inr (midnight y m d))%Z
  | None => fromisoformat_other s
  end.
End Parse.

(** [dt + timedelta(days=1)]; [None] is the [OverflowError] past the last
    day of year 9999. *)
Definition add_one_day (dt : datetime) : option datetime :=
  let with_date y m d :=
    mkDatetime y m d (hour dt) (minute dt) (second dt) (microsecond dt)
               (utcoffset dt) in
  (if day dt <? days_in_month (year dt) (month dt)
   then Some (with_date (year dt) (month dt) (day dt + 1))
   else if month dt <? 12 then Some (with_date (year dt) (month dt + 1) 1)
   else if year dt <? 9999 then Some (with_date (year dt + 1) 1 1)
   else None)%Z.

(** The [YYYY-MM-DD] text of the date part. *)
Definition date_text (dt : datetime) : string :=
  pad 4 (year dt) ++ "-" ++ pad 2 (month dt) ++ "-" ++ pad 2 (day dt).

(** [dt.isoformat()]. *)
Definition isoformat (dt : datetime) : string :=
  date_text dt ++ "T" ++ pad 2 (hour dt) ++ ":" ++ pad 2 (minute dt) ++ ":"
    ++ pad 2 (second dt)
    ++ (if (microsecond dt =? 0)%Z then "" else "." ++ pad 6 (microsecond dt))
    ++ utcoffset dt.

End Datetime.

(** ** Exceptions and results *)

Inductive exn : Type :=
| ValueError (msg : string)
| KeyError (msg : string)
| IndexError (msg : string)
| TypeError (msg : string)
| AttributeError (msg : string)
| OverflowError (msg : string)
| External (msg : string).
  (** [External]: an exception raised inside a collaborator ([requests],
      [boto3], [pystac_client], [planetary_computer]). *)

(** [str(e)]. *)
Definition exn_str (e : exn) : string :=
  match e with
  | ValueError m | KeyError m | IndexError m | TypeError m
  | AttributeError m | OverflowError m | External m => m
  end.

Inductive Result (A : Type) : Type :=
| Ok (a : A)
| Raise (e : exn).
Arguments Ok {A} a.
Arguments Raise {A} e.

(** The next pure step runs when the one before did not raise. *)
Definition and_then {A B} (r : Result A) (f : A -> Result B) : Result B :=
  match r with
  | Ok a => f a
  | Raise e => Raise e
  end.

(** ** STAC objects *)

(** A [pystac.Link] object is identified by its address: [Link] defines no
    [__eq__], so [list.remove] and [==] compare identities. *)
Definition loc := nat.

Record Link : Type := mkLink {
  rel : string;
  target : string;
  link_extra : value
}.

Record Asset : Type := mkAsset {
  href : string;
  media_type : option string;
  asset_extra : value
}.

Record Item : Type := mkItem {
  id : string;
  assets : list (string * Asset);
  links : list loc;
  item_extra : value
}.

(** The store of link objects: every address denotes an object. *)
Definition store := loc -> Link.

Definition store_set (h : store) (a : loc) (l : Link) : store :=
  fun a' => if Nat.eqb a' a then l else h a'.

Definition set_rel (l : Link) (r : string) : Link :=
  mkLink r (target l) (link_extra l).

Definition set_href (a : Asset) (h : string) : Asset :=
  mkAsset h (media_type a) (asset_extra a).

Definition set_links (it : Item) (ls : list loc) : Item :=
  mkItem (id it) (assets it) ls (item_extra it).

Definition set_assets (it : Item) (d : list (string * Asset)) : Item :=
  mkItem (id it) d (links it) (item_extra it).

(** ** [prepare_item_for_indexing] *)

Module Indexing.

Definition kept_rels : list string := ["canonical"; "collection"; "root"].

(** [r in rels]. *)
Definition rel_in (r : string) (rels : list string) : bool :=
  existsb (String.eqb r) rels.

(** The first loop: a ["self"] link object is relabelled in the store, a
    link with any other relation outside [kept_rels] is queued. *)
Fixpoint mark_links (ls : list loc) (h : store) (links_to_remove : list loc)
  : store * list loc :=
  match ls with
  | [] => (h, links_to_remove)
  | link :: rest =>
      if String.eqb (rel (h link)) "self"
      then mark_links rest (store_set h link (set_rel (h link) "canonical"))
                      links_to_remove
      else if negb (rel_in (rel (h link)) kept_rels)
      then mark_links rest h (links_to_remove ++ [link])%list
      else mark_links rest h links_to_remove
  end.

(** [l.remove(x)]: the first element equal to [x] goes; [None] is the
    [ValueError] of a list that does not hold [x]. *)
Fixpoint list_remove (x : loc) (l : list loc) : option (list loc) :=
  match l with
  | [] => None
  | y :: rest =>
      if Nat.eqb y x then Some rest
      else match list_remove x rest with
           | Some rest' => Some (y :: rest')
           | None => None
           end
  end.

(** The second loop. *)
Fixpoint remove_links (links_to_remove : list loc) (ls : list loc)
  : Result (list loc) :=
  match links_to_remove with
  | [] => Ok ls
  | link :: rest =>
      match list_remove link ls with
      | Some ls' => remove_links rest ls'
      | None => Raise (ValueError "list.remove(x): x not in list")
      end
  end.

Definition prepare_item_for_indexing (item : Item) (h : store)
  : Result Item * store :=
  let '(h', links_to_remove) := mark_links (links item) h [] in
  match remove_links links_to_remove (links item) with
  | Ok ls => (Ok (set_links item ls), h')
  | Raise e => (Raise e, h')
  end.

(** A link the transform keeps, judged on the store before the call. *)
Definition retained (h : store) (a : loc) : bool :=
  String.eqb (rel (h a)) "self" || rel_in (rel (h a)) kept_rels.

(** A link the second loop removes. *)
Definition disposable (h : store) (a : loc) : bool := negb (retained h a).

End Indexing.

(** ** The handler's monad *)

Inductive level : Type := INFO | WARNING | ERROR.

(** The log records of the module, one constructor per [logger] call with
    the values its format string interpolates. *)
Inductive record : Type :=
| ProcessingEvent (json : string)
| ProcessingTile (tile date download_assets max_items : value)
| FoundStacItems (n : nat)
| ProcessedFeatures (n : nat)
| ErrorProcessingPayload (e : string)
| Querying (tile date max_items : value)
| FoundItemsForTile (n : nat) (tile : value)
| EstimatedDownloadSize (items : nat)
| LargeDataset (items : nat)
| MetadataOnly
| ErrorQuerying (e : string)
| DownloadingAssets (item_id : string)
| DownloadedAndUpdated (asset_key item_id : string)
| FailedToDownload (asset_key item_id e : string)
| UploadedPayload (url : string)
| FailedToUpload (e : string)
| PayloadSize (size threshold : Z) (upload_to_s3 : bool)
| CouldNotDetermineSize (e : string).

(** The callables a catalog client is opened with as its [modifier]: the
    client applies its modifier to what its searches return, before the
    items are built. *)
Inductive modifier : Type :=
| sign_inplace.
  (** [planetary_computer.sign_inplace]: signs the hrefs of the assets. *)

Definition API_MODIFIER : modifier := sign_inplace.

(** What the handler does to the outside, in the order it does it.  A
    search is made by a client, and carries the modifier of its client. *)
Inductive effect : Type :=
| Log (lv : level) (r : record)
| ClientOpen (url : string) (m : modifier)
| Search (m : modifier) (collection : string) (datetime tile max_items : value)
| Sign (item_id : string)
| Get (url : string)
| PutObject (bucket : option string) (s3_key body content_type : string).

Section Monad.
Variable S : Type.

Definition M (A : Type) : Type := S -> Result A * S.

Definition ret {A} (a : A) : M A := fun s => (Ok a, s).

Definition raise {A} (e : exn) : M A := fun s => (Raise e, s).

Definition bind {A B} (m : M A) (f : A -> M B) : M B :=
  fun s => match m s with
           | (Ok a, s') => f a s'
           | (Raise e, s') => (Raise e, s')
           end.

(** [try: m  except Exception as e: handler e]; what [m] did to the state
    before raising stays done. *)
Definition try_except {A} (m : M A) (handler : exn -> M A) : M A :=
  fun s => match m s with
           | (Ok a, s') => (Ok a, s')
           | (Raise e, s') => handler e s'
           end.

Definition lift {A} (r : Result A) : M A := fun s => (r, s).
End Monad.

Arguments ret {S A} a.
Arguments raise {S A} e.
Arguments bind {S A B} m f.
Arguments try_except {S A} m handler.
Arguments lift {S A} r.

Notation "x <- m ;; k" := (bind m (fun x => k))
  (at level 61, m at next level, right associativity).
Notation "m ;;; k" := (bind m (fun _ => k))
  (at level 61, right associativity).

(** ** The module [handler.py] *)

Definition TASK_NAME : string := "planetary-computer-to-s3".

(** The state of a run. *)
Record State (Ext : Type) : Type := mkState {
  event : dict;            (** the [event] object the caller passed *)
  heap : store;            (** the link objects *)
  world : Ext;             (** the outside world *)
  trace : list effect
}.
Arguments event {Ext} s.
Arguments heap {Ext} s.
Arguments world {Ext} s.
Arguments trace {Ext} s.
Arguments mkState {Ext} event heap world trace.

(** A deployment: the module constants read from the environment and the
    collaborators, over the state [Ext] of the outside world (the catalog,
    the signing service, the network, the object store and the clock).
    Each collaborator is a function of the world's state; [inl msg] is an
    exception it raises, with its [str]. *)
Class Deployment (Ext : Type) : Type := {
  COLLECTION : string;
  STAC_API_URL : string;
  CIRRUS_DATA_BUCKET : option string;
  CIRRUS_PAYLOAD_BUCKET : option string;
  (** [Client.open(url, modifier=m)]. *)
  client_open : string -> modifier -> Ext -> (string + unit) * Ext;
  (** [list(client.search(collections=[c], datetime=d, query=..., max_items=n).items())]
      on a client opened with modifier [m]: the items it returns have gone
      through the modifier, and hold freshly decoded link objects. *)
  search_items :
    modifier -> string -> value -> value -> value -> store -> Ext ->
    (string + list Item) * store * Ext;
  (** [planetary_computer.sign(item)]: a signed copy of the item. *)
  sign : Item -> Ext -> (string + Item) * Ext;
  (** [requests.get(url, timeout=300)] followed by [raise_for_status()];
      the result is [response.content]. *)
  requests_get : string -> Ext -> (string + string) * Ext;
  (** [s3_client.put_object(Bucket, Key, Body, ContentType)]. *)
  put_object :
    option string -> string -> string -> string -> Ext -> (string + unit) * Ext;
  (** [datetime.utcnow()]. *)
  utcnow : Ext -> Datetime.datetime;
  (** [item.to_dict()]. *)
  to_dict : store -> Item -> value;
  (** [repr] of a container, for the f-strings that print one. *)
  repr_container : value -> string;
  (** [datetime.fromisoformat] on the texts that are not a plain date;
      [inl e] is its [ValueError]. *)
  fromisoformat_other : string -> Datetime.iso_error + Datetime.datetime
}.

Section Handler.

Context {Ext : Type} {D : Deployment Ext}.

Definition set_event (ev : dict) : M (State Ext) unit :=
  fun st => (Ok tt, mkState ev (heap st) (world st) (trace st)).

Definition get_event : M (State Ext) dict := fun st => (Ok (event st), st).

Definition emit (e : effect) (st : State Ext) : State Ext :=
  mkState (event st) (heap st) (world st) (trace st ++ [e])%list.

Definition log (lv : level) (r : record) : M (State Ext) unit :=
  fun st => (Ok tt, emit (Log lv r) st).

(** A call to a collaborator: the call is traced, the world moves, and an
    exception of the collaborator propagates as [External]. *)
Definition call {A} (e : effect) (f : Ext -> (string + A) * Ext)
  : M (State Ext) A :=
  fun st =>
    let '(r, w') := f (world st) in
    (match r with inl m => Raise (External m) | inr a => Ok a end,
     mkState (event st) (heap st) w' (trace st ++ [e])%list).

(** [str(v)], as an f-string interpolates a value. *)
Definition py_str (v : value) : string :=
  match v with
  | VNone => "None"
  | VBool true => "True"
  | VBool false => "False"
  | VInt z => Text.of_Z z
  | VFloat r => r
  | VStr s => s
  | _ => repr_container v
  end.

Definition str_of_bucket (b : option string) : string :=
  match b with Some s => s | None => "None" end.

(** [d[k]] on a [dict]. *)
Definition getitem (k : string) (d : dict) : Result value :=
  match Py.get (KStr k) d with
  | Some v => Ok v
  | None => Raise (KeyError (Text.repr k))
  end.

Definition not_subscriptable (v : value) : exn :=
  TypeError ("'" ++ Py.type_name v ++ "' object is not subscriptable").

(** [v[0]]. *)
Definition getitem0 (v : value) : Result value :=
  match v with
  | VList (x :: _) => Ok x
  | VList [] => Raise (IndexError "list index out of range")
  | VTuple (x :: _) => Ok x
  | VTuple [] => Raise (IndexError "tuple index out of range")
  | VStr (String c _) => Ok (VStr (Text.str1 c))
  | VStr EmptyString => Raise (IndexError "string index out of range")
  | VDict d =>
      match Py.get (KInt 0) d with
      | Some x => Ok x
      | None => Raise (KeyError "0")
      end
  | _ => Raise (not_subscriptable v)
  end.

Definition no_attribute (v : value) (name : string) : exn :=
  AttributeError
    ("'" ++ Py.type_name v ++ "' object has no attribute '" ++ name ++ "'").

(** [v.get(k, default)]. *)
Definition method_get (v : value) (k : string) (default : value)
  : Result value :=
  match v with
  | VDict d =>
      Ok (match Py.get (KStr k) d with Some x => x | None => default end)
  | _ => Raise (no_attribute v "get")
  end.

(** [json.dumps(v, default=str)] as a statement that may raise. *)
Definition json_dumps (v : value) : Result string :=
  match Json.dumps v with
  | Some text => Ok text
  | None =>
      Raise (TypeError "keys must be str, int, float, bool or None, not tuple")
  end.

(** *** [query_planetary_computer] *)

(** ["/" in date]. *)
Definition has_slash (date : value) : Result bool :=
  match date with
  | VStr s => Ok (Text.contains "/" s)
  | VList l | VTuple l =>
      Ok (existsb (fun x => match x with
                            | VStr s => String.eqb s "/"
                            | _ => false
                            end) l)
  | VDict d => Ok (Py.mem (KStr "/") d)
  | _ => Raise (TypeError ("argument of type '" ++ Py.type_name date
                             ++ "' is not iterable"))
  end.

(** Lines 150-157: the [datetime] argument of the search. *)
Definition datetime_query (date : value) : Result value :=
  match has_slash date with
  | Raise e => Raise e
  | Ok true => Ok date
  | Ok false =>
      match date with
      | VStr s =>
          match Datetime.fromisoformat fromisoformat_other s with
          | inl e => Raise (ValueError (Datetime.iso_error_text s e))
          | inr start_date =>
              match Datetime.add_one_day start_date with
              | None => Raise (OverflowError "date value out of range")
              | Some end_date =>
                  Ok (VStr (Datetime.isoformat start_date ++ "/"
                              ++ Datetime.isoformat end_date))
              end
          end
      | _ => Raise (TypeError "fromisoformat: argument must be str")
      end
  end.

Definition query_planetary_computer
           (tile date max_items download_assets : value)
  : M (State Ext) (list Item) :=
  log INFO (Querying tile date max_items) ;;;
  try_except
    (call (ClientOpen STAC_API_URL API_MODIFIER)
          (client_open STAC_API_URL API_MODIFIER) ;;;
     dq <- lift (datetime_query date) ;;
     items <- (fun st =>
                 let '(r, h', w') :=
                   search_items API_MODIFIER COLLECTION dq tile max_items
                                (heap st) (world st) in
                 (match r with
                  | inl m => Raise (External m)
                  | inr its => Ok its
                  end,
                  mkState (event st) h' w'
                          (trace st ++ [Search API_MODIFIER COLLECTION dq tile max_items])%list)) ;;
     log INFO (FoundItemsForTile (List.length items) tile) ;;;
     (if Py.truthy download_assets
      then
        (* estimated_size_gb = len(items) * 0.5, compared with 10 *)
        log INFO (EstimatedDownloadSize (List.length items)) ;;;
        if Nat.ltb 20 (List.length items)
        then log WARNING (LargeDataset (List.length items))
        else ret tt
      else log INFO MetadataOnly) ;;;
     ret items)
    (fun e => log ERROR (ErrorQuerying (exn_str e)) ;;; raise e).

(** *** [download_and_update_item] *)

(** [asset.media_type and "geotiff" in asset.media_type]. *)
Definition is_geotiff (a : Asset) : bool :=
  match media_type a with
  | Some mt => negb (String.eqb mt "") && Text.contains "geotiff" mt
  | None => false
  end.

(** [assets[asset_key].href = new]; [None] is the [KeyError]. *)
Fixpoint assign_href (asset_key new : string) (d : list (string * Asset))
  : option (list (string * Asset)) :=
  match d with
  | [] => None
  | (k, a) :: rest =>
      if String.eqb k asset_key then Some ((k, set_href a new) :: rest)
      else match assign_href asset_key new rest with
           | Some rest' => Some ((k, a) :: rest')
           | None => None
           end
  end.

(** [assets[asset_key]]. *)
Fixpoint asset_at (asset_key : string) (d : list (string * Asset))
  : option Asset :=
  match d with
  | [] => None
  | (k, a) :: rest =>
      if String.eqb k asset_key then Some a else asset_at asset_key rest
  end.

Definition s3_key_of (item_id asset_key : string) : string :=
  "sentinel-2-l2a/" ++ item_id ++ "/" ++ asset_key ++ ".tif".

Definition s3_href_of (item_id asset_key : string) : string :=
  "s3://" ++ str_of_bucket CIRRUS_DATA_BUCKET ++ "/"
    ++ s3_key_of item_id asset_key.

(** The body of the loop over [signed_item.assets.items()]; [item] is the
    original item, which the body updates. *)
Definition process_asset (item : Item) (asset_key : string) (asset : Asset)
  : M (State Ext) Item :=
  if is_geotiff asset then
    try_except
      (content <- call (Get (href asset)) (requests_get (href asset)) ;;
       let s3_key := s3_key_of (id item) asset_key in
       let content_type :=
         match media_type asset with Some mt => mt | None => "" end in
       call (PutObject CIRRUS_DATA_BUCKET s3_key content content_type)
            (put_object CIRRUS_DATA_BUCKET s3_key content content_type) ;;;
       match assign_href asset_key (s3_href_of (id item) asset_key)
                         (assets item) with
       | None => raise (KeyError (Text.repr asset_key))
       | Some d =>
           log INFO (DownloadedAndUpdated asset_key (id item)) ;;;
           ret (set_assets item d)
       end)
      (fun e =>
         log WARNING (FailedToDownload asset_key (id item) (exn_str e)) ;;;
         (* Keep original href if download fails *)
         ret item)
  else ret item.

Fixpoint process_assets (item : Item) (signed : list (string * Asset))
  : M (State Ext) Item :=
  match signed with
  | [] => ret item
  | (asset_key, asset) :: rest =>
      item' <- process_asset item asset_key asset ;;
      process_assets item' rest
  end.

Definition download_and_update_item (item : Item) : M (State Ext) Item :=
  log INFO (DownloadingAssets (id item)) ;;;
  signed_item <- call (Sign (id item)) (sign item) ;;
  process_assets item (assets signed_item).

(** *** [prepare_item_for_indexing], on the handler's state *)

Definition prepare_item_for_indexing (item : Item) : M (State Ext) Item :=
  fun st =>
    let '(r, h') := Indexing.prepare_item_for_indexing item (heap st) in
    (r, mkState (event st) h' (world st) (trace st)).

(** *** [should_upload_to_s3] and [upload_payload_to_s3] *)

Definition threshold : Z := 240000.

Definition should_upload_to_s3 (payload : dict) : M (State Ext) bool :=
  try_except
    (payload_json <- lift (json_dumps (VDict payload)) ;;
     let payload_size := Json.utf8_len payload_json in
     let should_upload := (payload_size >? threshold)%Z in
     log INFO (PayloadSize payload_size threshold should_upload) ;;;
     ret should_upload)
    (fun e => log WARNING (CouldNotDetermineSize (exn_str e)) ;;; ret true).

(** [not CIRRUS_PAYLOAD_BUCKET]. *)
Definition bucket_unset (b : option string) : bool :=
  match b with
  | None => true
  | Some s => String.eqb s ""
  end.

Definition upload_payload_to_s3 (payload : dict) : M (State Ext) string :=
  if bucket_unset CIRRUS_PAYLOAD_BUCKET
  then raise (ValueError "CIRRUS_PAYLOAD_BUCKET environment variable not set")
  else
    try_except
      (payload_id <- lift (getitem "id" payload) ;;
       let url := "s3://" ++ str_of_bucket CIRRUS_PAYLOAD_BUCKET ++ "/"
                    ++ TASK_NAME ++ "/" ++ py_str payload_id ++ ".json" in
       let s3_key := TASK_NAME ++ "/" ++ py_str payload_id ++ ".json" in
       body <- lift (json_dumps (VDict payload)) ;;
       call (PutObject CIRRUS_PAYLOAD_BUCKET s3_key body "application/json")
            (put_object CIRRUS_PAYLOAD_BUCKET s3_key body "application/json") ;;;
       log INFO (UploadedPayload url) ;;;
       ret url)
      (fun e => log ERROR (FailedToUpload (exn_str e)) ;;; raise e).

(** *** [lambda_handler] *)

(** Lines 86-95: the loop over [stac_items]. *)
Fixpoint process_items (download_assets : value) (stac_items : list Item)
         (processed_features : list value) : M (State Ext) (list value) :=
  match stac_items with
  | [] => ret processed_features
  | item :: rest =>
      updated_item <- (if Py.truthy download_assets
                       then download_and_update_item item
                       else prepare_item_for_indexing item) ;;
      feature <- (fun st => (Ok (to_dict (heap st) updated_item), st)) ;;
      process_items download_assets rest
                    (processed_features ++ [feature])%list
  end.

(** [event[k].extend(xs)], and [event[k].append(x)] with [xs = [x]]:
    [method] is the name looked up on the object, which only a [list]
    has. *)
Definition extend_at (k method : string) (xs : list value) : M (State Ext) unit :=
  ev <- get_event ;;
  match Py.get (KStr k) ev with
  | Some (VList l) => set_event (Py.set (KStr k) (VList (l ++ xs)%list) ev)
  | Some v => raise (no_attribute v method)
  | None => raise (KeyError (Text.repr k))
  end.

(** [if k not in event: event[k] = []]. *)
Definition ensure_list (k : string) : M (State Ext) unit :=
  ev <- get_event ;;
  if negb (Py.mem (KStr k) ev)
  then set_event (Py.set (KStr k) (VList []) ev)
  else ret tt.

Definition config_error : exn :=
  ValueError "Both 'tile' and 'date' are required in task configuration".

(** Lines 61-75: the task configuration and its validation. *)
Definition task_configuration (ev : dict)
  : Result (value * value * value * value) :=
and_then (getitem "process" ev) (fun process =>
and_then (getitem0 process) (fun process_config =>
and_then (method_get process_config "tasks" (VDict [])) (fun tasks =>
and_then (method_get tasks "planetary-computer-to-s3" (VDict []))
         (fun task_config =>
and_then (method_get task_config "tile" VNone) (fun tile =>
and_then (method_get task_config "date" VNone) (fun date =>
and_then (method_get task_config "download_assets" (VBool false))
         (fun download_assets =>
and_then (method_get task_config "max_items" (VInt 100)) (fun max_items =>
if negb (Py.truthy tile) || negb (Py.truthy date)
then Raise config_error
else Ok (tile, date, download_assets, max_items))))))))).

(** Lines 58-75. *)
Definition read_config : M (State Ext) (value * value * value * value) :=
ev <- get_event ;;
text <- lift (json_dumps (VDict ev)) ;;
log INFO (ProcessingEvent text) ;;;
lift (task_configuration ev).

(** Lines 104-111: the size check and the response. *)
Definition respond : M (State Ext) value :=
ev <- get_event ;;
upload <- should_upload_to_s3 ev ;;
if upload
then s3_url <- upload_payload_to_s3 ev ;;
     ret (VDict [(KStr "url", VStr s3_url)])
else ret (VDict ev).

(** Lines 83-111: the loop over the items, the update of the payload and
    the response. *)
Definition process_and_respond (download_assets : value)
           (stac_items : list Item) : M (State Ext) value :=
log INFO (FoundStacItems (List.length stac_items)) ;;;
processed_features <- process_items download_assets stac_items [] ;;
ensure_list "features" ;;;
extend_at "features" "extend" processed_features ;;;
log INFO (ProcessedFeatures (List.length processed_features)) ;;;
respond.

(** Lines 77-111: from the query to the response. *)
Definition run_pipeline (cfg : value * value * value * value)
  : M (State Ext) value :=
let '(tile, date, download_assets, max_items) := cfg in
log INFO (ProcessingTile tile date download_assets max_items) ;;;
stac_items <-
  query_planetary_computer tile date max_items download_assets ;;
process_and_respond download_assets stac_items.

(** The [try] block. *)
Definition handler_body : M (State Ext) value :=
  cfg <- read_config ;;
  run_pipeline cfg.

Definition error_record (e : exn) (now : Datetime.datetime) : value :=
  VDict [(KStr "task", VStr "planetary-computer-to-s3");
         (KStr "error", VStr (exn_str e));
         (KStr "timestamp", VStr (Datetime.isoformat now))].

(** The [except Exception as e] block. *)
Definition on_exception (e : exn) : M (State Ext) value :=
  log ERROR (ErrorProcessingPayload (exn_str e)) ;;;
  ensure_list "errors" ;;;
  now <- (fun st => (Ok (utcnow (world st)), st)) ;;
  extend_at "errors" "append" [error_record e now] ;;;
  raise e.

Definition lambda_handler : M (State Ext) value :=
  try_except handler_body on_exception.

End Handler.

(** ** A scripted world

    A small closed instance of the collaborators, on which the model runs:
    the catalog answers every search with a fixed list of items, the network
    fails on listed URLs, the store refuses listed keys, the clock stands
    still. *)

Module Scripted.

Record World : Type := mkWorld {
  catalog : list Item;
  catalog_links : store;
  dead_urls : list string;
  refused_keys : list string;
  clock : Datetime.datetime
}.

Definition mem_str (s : string) (l : list string) : bool :=
  existsb (String.eqb s) l.

Definition open_client (url : string) (m : modifier) (w : World)
  : (string + unit) * World :=
  (inr tt, w).

(** The catalog of the world holds the items as a search yields them, the
    modifier of the client applied. *)
Definition search_catalog (m : modifier) (collection : string)
           (dq tile max_items : value)
           (h : store) (w : World) : (string + list Item) * store * World :=
  (inr (catalog w), catalog_links w, w).

Definition sign_asset (ka : string * Asset) : string * Asset :=
  (fst ka, set_href (snd ka) (href (snd ka) ++ "?sig=token")).

Definition sign_urls (item : Item) (w : World) : (string + Item) * World :=
  (inr (set_assets item (map sign_asset (assets item))), w).

Definition fetch (url : string) (w : World) : (string + string) * World :=
  if mem_str url (dead_urls w)
  then (inl ("404 Client Error: Not Found for url: " ++ url), w)
  else (inr ("content of " ++ url), w).

Definition store_object (bucket : option string) (s3_key body content_type : string)
           (w : World) : (string + unit) * World :=
  match bucket with
  | None => (inl "Parameter validation failed: Invalid type for parameter Bucket", w)
  | Some _ =>
      if mem_str s3_key (refused_keys w)
      then (inl "An error occurred (AccessDenied) when calling the PutObject operation", w)
      else (inr tt, w)
  end.

Definition read_clock (w : World) : Datetime.datetime := clock w.

Definition link_dict (h : store) (a : loc) : value :=
  VDict [(KStr "rel", VStr (rel (h a))); (KStr "href", VStr (target (h a)))].

Definition asset_dict (ka : string * Asset) : key * value :=
  (KStr (fst ka), VDict [(KStr "href", VStr (href (snd ka)))]).

Definition item_dict (h : store) (item : Item) : value :=
  VDict [(KStr "type", VStr "Feature");
         (KStr "id", VStr (id item));
         (KStr "links", VList (map (link_dict h) (links item)));
         (KStr "assets", VDict (map asset_dict (assets item)))].

Definition repr_opaque (v : value) : string := "<container>".

(** The interpreter accepts nothing but plain dates. *)
Definition no_other_format (s : string)
  : Datetime.iso_error + Datetime.datetime :=
  inl Datetime.InvalidIsoformat.

Definition deployment (data_bucket payload_bucket : option string)
  : Deployment World :=
  {| COLLECTION := "sentinel-2-l2a";
     STAC_API_URL := "https://planetarycomputer.microsoft.com/api/stac/v1";
     CIRRUS_DATA_BUCKET := data_bucket;
     CIRRUS_PAYLOAD_BUCKET := payload_bucket;
     client_open := open_client;
     search_items := search_catalog;
     sign := sign_urls;
     requests_get := fetch;
     put_object := store_object;
     utcnow := read_clock;
     to_dict := item_dict;
     repr_container := repr_opaque;
     fromisoformat_other := no_other_format |}.

(** The usual deployment: both buckets configured. *)
Definition full : Deployment World :=
  deployment (Some "data-bucket") (Some "payload-bucket").


(** Three link objects at addresses 0, 1, 2; every other address holds a
    ["root"] link. *)
Definition three_links : store :=
  fun a =>
    match a with
    | 0 => mkLink "self" "https://pc/items/a" VNone
    | 1 => mkLink "child" "https://pc/items/a/child" VNone
    | 2 => mkLink "collection" "https://pc/collections/s2" VNone
    | _ => mkLink "root" "https://pc/" VNone
    end.

Definition tif : option string :=
  Some "image/tiff; application=geotiff; profile=cloud-optimized".

Definition item_a : Item :=
  mkItem "S2A_33UUP"
         [("B04", mkAsset "https://pc/a/B04.tif" tif VNone);
          ("thumbnail", mkAsset "https://pc/a/thumb.png" (Some "image/png") VNone);
          ("B08", mkAsset "https://pc/a/B08.tif" tif VNone);
          ("metadata", mkAsset "https://pc/a/meta.xml" None VNone)]
         [0; 1; 2; 1]
         VNone.

Definition noon : Datetime.datetime :=
  Datetime.mkDatetime 2024 6 1 12 0 0 0 "".

Definition quiet : World := mkWorld [item_a] three_links [] [] noon.

(** The world where the fetch of band 4 fails. *)
Definition b04_down : World :=
  mkWorld [item_a] three_links ["https://pc/a/B04.tif?sig=token"] [] noon.

Definition task (tile date : value) (download_assets : bool) : value :=
  VDict [(KStr "tile", tile); (KStr "date", date);
         (KStr "download_assets", VBool download_assets);
         (KStr "max_items", VInt 5)].

Definition request (id : string) (task_config : value) : dict :=
  [(KStr "id", VStr id);
   (KStr "process",
    VList [VDict [(KStr "tasks",
                   VDict [(KStr "planetary-computer-to-s3", task_config)])]])].

Definition start (ev : dict) (w : World) : State World :=
  mkState ev (fun _ => mkLink "root" "" VNone) w [].

(** The requests of the examples: metadata only, with downloads, and with
    an empty tile. *)
Definition metadata_request : dict :=
  request "p1" (task (VStr "33UUP") (VStr "2024-06-01") false).

Definition download_request : dict :=
  request "p1" (task (VStr "33UUP") (VStr "2024-06-01/2024-06-03") true).

Definition empty_tile_request : dict :=
  request "p1" (task (VStr "") (VStr "2024-06-01") false).

(** A request that already carries one feature. *)
Definition request_with_feature : dict :=
  (metadata_request ++ [(KStr "features", VList [VStr "earlier"])])%list.

(** A request padded beyond the threshold of the size check. *)
Definition padded_request : dict :=
  (metadata_request
     ++ [(KStr "padding", VStr (Text.repeat_char "x" (240 * 1000)))])%list.

(** A payload that [json.dumps] refuses: a tuple is a key of a nested
    dictionary, as in [{"id": "p1", "a": {(1, 2): 3}}]. *)
Definition tuple_keyed : dict :=
  [(KStr "id", VStr "p1");
   (KStr "a", VDict [(KTuple [KInt 1; KInt 2], VInt 3)])].

Definition thumbnail : Asset :=
  mkAsset "https://pc/a/thumb.png" (Some "image/png") VNone.

(** The text of a payload, empty when it has none. *)
Definition text_of (ev : dict) : string :=
  match Json.dumps (VDict ev) with
  | Some text => text
  | None => ""
  end.

End Scripted.

(** ** Vocabulary of the statements *)

Section Triples.
Context {S A : Type}.

(** From a state in [P], the run of [m] ends in [Q] when it returns and in
    [E] when it raises. *)
Definition triple (P : S -> Prop) (m : M S A)
           (Q : A -> S -> Prop) (E : exn -> S -> Prop) : Prop :=
  forall s, P s ->
    match m s with
    | (Ok a, s') => Q a s'
    | (Raise e, s') => E e s'
    end.
End Triples.

(** The sequence under key [k] of a payload; empty when there is none. *)
Definition sequence_at (k : string) (ev : dict) : list value :=
  match Py.get (KStr k) ev with
  | Some (VList l) => l
  | _ => []
  end.

(** The payload types key [k] as the data model does: a sequence, or
    nothing. *)
Definition sequence_or_absent (k : string) (ev : dict) : Prop :=
  Py.get (KStr k) ev = None \/ exists l, Py.get (KStr k) ev = Some (VList l).

(** A field of the task configuration, [None] when absent. *)
Definition field (k : string) (task_config : dict) : value :=
  match Py.get (KStr k) task_config with
  | Some v => v
  | None => VNone
  end.

(** The field is absent, or present and empty: its truth value is false, as
    for the empty text, [None], zero and an empty container. *)
Definition absent_or_empty (k : string) (task_config : dict) : Prop :=
  Py.get (KStr k) task_config = None
  \/ exists v, Py.get (KStr k) task_config = Some v /\ Py.truthy v = false.

(** The task configuration of a request: [tasks["planetary-computer-to-s3"]]
    of the first element of [process], each mapping defaulting to the empty
    one when its key is absent. *)
Definition task_config_of (ev : dict) : option dict :=
  match Py.get (KStr "process") ev with
  | Some (VList (VDict process_config :: _)) =>
      match Py.get (KStr "tasks") process_config with
      | None => Some []
      | Some (VDict tasks) =>
          match Py.get (KStr TASK_NAME) tasks with
          | None => Some []
          | Some (VDict task_config) => Some task_config
          | Some _ => None
          end
      | Some _ => None
      end
  | _ => None
  end.

(** The URLs fetched, in order. *)
Definition fetched (t : list effect) : list string :=
  flat_map (fun e => match e with Get url => [url] | _ => [] end) t.

Section DeploymentVocabulary.
Context {Ext : Type} {D : Deployment Ext}.

(** Signing resolves URLs only: the signed item has the assets of the
    original, under the same keys and with the same media types. *)
Definition sign_keeps_media_types : Prop :=
  forall item w signed w',
    sign item w = (inr signed, w') ->
    map (fun ka => (fst ka, media_type (snd ka))) (assets signed)
    = map (fun ka => (fst ka, media_type (snd ka))) (assets item).

(** The fetch of a signed asset and the store of its bytes both succeed
    in world [w]. *)
Definition fetch_and_store_succeed (item_id asset_key : string)
           (asset : Asset) (w : Ext) : bool :=
  match requests_get (href asset) w with
  | (inr content, w1) =>
      match put_object CIRRUS_DATA_BUCKET (s3_key_of item_id asset_key)
                       content
                       (match media_type asset with
                        | Some mt => mt
                        | None => ""
                        end) w1 with
      | (inr _, _) => true
      | (inl _, _) => false
      end
  | (inl _, _) => false
  end.

(** The transform of one item, as the handler's loop applies it. *)
Definition transform_item (download_assets : value) (item : Item)
  : M (State Ext) Item :=
  if Py.truthy download_assets
  then download_and_update_item item
  else prepare_item_for_indexing item.

End DeploymentVocabulary.

(** A property of the state that no effect breaks: it survives every
    trace entry and every move of the outside world and of the link
    store. *)
Record effect_invariant {Ext : Type} (I : State Ext -> Prop) : Prop := {
  inv_emit : forall ev h w t e,
    I (mkState ev h w t) -> I (mkState ev h w (t ++ [e])%list);
  inv_outside : forall ev h w t h' w',
    I (mkState ev h w t) -> I (mkState ev h' w' t)
}.

(** A property that survives the two updates of the sequence under [k]:
    its creation when absent, and its extension. *)
Record closed_under_updates_of {Ext : Type} (k : string)
       (I : State Ext -> Prop) : Prop := {
  inv_new : forall ev h w t,
    I (mkState ev h w t) -> Py.mem (KStr k) ev = false ->
    I (mkState (Py.set (KStr k) (VList []) ev) h w t);
  inv_more : forall ev h w t l xs,
    I (mkState ev h w t) -> Py.get (KStr k) ev = Some (VList l) ->
    I (mkState (Py.set (KStr k) (VList (l ++ xs)%list) ev) h w t)
}.


(** The payload holds [v] under [k] ([None]: holds nothing). *)
Definition holds_at {Ext : Type} (k : string) (v : option value)
           (s : State Ext) : Prop :=
  Py.get (KStr k) (event s) = v.

(** The trace holds [x]. *)
Definition traced {Ext : Type} (x : effect) (s : State Ext) : Prop :=
  In x (trace s).


(** The exception is not the validation's. *)
Definition foreign (e : exn) : Prop := e <> config_error.

(** ** Vocabulary of the further properties *)

(** The effect is a log record. *)
Definition is_log (e : effect) : Prop :=
  match e with
  | Log _ _ => True
  | _ => False
  end.

(** The trace is [t0] followed by entries that all satisfy [P]. *)
Definition appended {Ext : Type} (P : effect -> Prop) (t0 : list effect)
           (s : State Ext) : Prop :=
  exists new, trace s = (t0 ++ new)%list /\ Forall P new.

Section FurtherVocabulary.
Context {Ext : Type} {D : Deployment Ext}.

(** An effect of a run in metadata-only mode: a log record, the opening of
    the catalog client at the configured URL with the signing modifier, a
    search by such a client in the configured collection (the modifier
    signs what the search returns), or the store of a JSON payload in the
    payload bucket.  It is no call of [planetary_computer.sign] and no
    fetch. *)
Definition metadata_effect (e : effect) : Prop :=
  match e with
  | Log _ _ => True
  | ClientOpen url m => url = STAC_API_URL /\ m = API_MODIFIER
  | Search m collection _ _ _ => m = API_MODIFIER /\ collection = COLLECTION
  | Sign _ | Get _ => False
  | PutObject bucket _ _ content_type =>
      bucket = CIRRUS_PAYLOAD_BUCKET /\ content_type = "application/json"
  end.

(** An effect the transform of the item [item_id] may have, [signed] being
    the assets of its signed copy: a log record, the signing of the item,
    the fetch of a signed GeoTIFF asset, or the store of one in the data
    bucket under the key of that asset with its media type. *)
Definition asset_effect (item_id : string) (signed : list (string * Asset))
           (e : effect) : Prop :=
  match e with
  | Log _ _ => True
  | Sign i => i = item_id
  | Get url =>
      exists k a, In (k, a) signed /\ is_geotiff a = true /\ url = href a
  | PutObject bucket s3_key _ content_type =>
      bucket = CIRRUS_DATA_BUCKET
      /\ exists k a,
          In (k, a) signed /\ is_geotiff a = true
          /\ s3_key = s3_key_of item_id k
          /\ media_type a = Some content_type
  | ClientOpen _ _ | Search _ _ _ _ _ => False
  end.

(** The asset [after] is [before] under the same key, with nothing changed
    but, possibly, its href, which is then the S3 location of the key. *)
Definition rehosted (item_id : string) (before after : string * Asset)
  : Prop :=
  fst after = fst before
  /\ media_type (snd after) = media_type (snd before)
  /\ asset_extra (snd after) = asset_extra (snd before)
  /\ (href (snd after) = href (snd before)
      \/ href (snd after) = s3_href_of item_id (fst before)).


(** Every fetch fails, in every world. *)
Definition network_down : Prop :=
  forall url w, exists m w', requests_get url w = (inl m, w').

(** What a failed query leaves behind. *)
Definition failed_query (date : value) (e : exn) (st st' : State Ext) : Prop :=
  event st' = event st
  /\ (exists t, trace st'
                = (t ++ [Log ERROR (ErrorQuerying (exn_str e))])%list)
  /\ ((exists m, e = External m) \/ datetime_query date = Raise e).

End FurtherVocabulary.

(** ** More scripted requests and a deployment without network *)

Module Cases.
Import Scripted.

(** The deployment of [Scripted.full] behind a network that refuses every
    connection. *)
Definition refuse (url : string) (w : World) : (string + string) * World :=
  (inl ("Connection refused: " ++ url), w).

Definition offline : Deployment World :=
  {| COLLECTION := "sentinel-2-l2a";
     STAC_API_URL := "https://planetarycomputer.microsoft.com/api/stac/v1";
     CIRRUS_DATA_BUCKET := Some "data-bucket";
     CIRRUS_PAYLOAD_BUCKET := Some "payload-bucket";
     client_open := open_client;
     search_items := search_catalog;
     sign := sign_urls;
     requests_get := refuse;
     put_object := store_object;
     utcnow := read_clock;
     to_dict := item_dict;
     repr_container := repr_opaque;
     fromisoformat_other := no_other_format |}.

(** A request without a tile whose [errors] is [null]. *)
Definition errors_null_request : dict :=
  (empty_tile_request ++ [(KStr "errors", VNone)])%list.

(** A request without [process]. *)
Definition no_process_request : dict := [(KStr "id", VStr "p1")].

(** A request that gives a tile and a date and leaves the rest to the
    defaults. *)
Definition default_task : dict :=
  [(KStr "tile", VStr "33UUP"); (KStr "date", VStr "2024-06-01")].

Definition default_request : dict := request "p1" (VDict default_task).

(** A request whose [features] is a text. *)
Definition features_text_request : dict :=
  (metadata_request ++ [(KStr "features", VStr "none")])%list.

End Cases.

(** * Properties *)

(** ** The metadata-only transform *)

Module IndexingFacts.
Import Indexing.

#[local] Arguments rel_in : simpl never.

Lemma rel_in_kept_self : rel_in "self" kept_rels = false.
Proof. reflexivity. Qed.

Lemma rel_in_In (r : string) (rels : list string) :
  rel_in r rels = true <-> In r rels.
Proof.
  unfold rel_in. rewrite existsb_exists. split.
  - intros [x [Hin Heq]]. apply String.eqb_eq in Heq. now subst.
  - intros Hin. exists r. split; [assumption | apply String.eqb_refl].
Qed.

(** Relabelling one ["self"] link does not change which links are
    retained. *)
Lemma retained_relabel (h : store) (link a : loc) :
  String.eqb (rel (h link)) "self" = true ->
  retained (store_set h link (set_rel (h link) "canonical")) a = retained h a.
Proof.
  intros Hself. unfold retained, store_set.
  destruct (Nat.eqb a link) eqn:E; [| reflexivity].
  apply Nat.eqb_eq in E. subst a. rewrite Hself. reflexivity.
Qed.

(** The queue the first loop builds: the disposable links, in order. *)
Lemma mark_links_queue (ls : list loc) :
  forall h acc,
    snd (mark_links ls h acc) = (acc ++ filter (disposable h) ls)%list.
Proof.
  induction ls as [| link rest IH]; intros h acc; simpl.
  - now rewrite app_nil_r.
  - unfold disposable at 1, retained.
    destruct (String.eqb (rel (h link)) "self") eqn:Hself; simpl.
    + rewrite IH. f_equal. apply filter_ext. intros a. unfold disposable.
      now rewrite retained_relabel.
    + destruct (rel_in (rel (h link)) kept_rels) eqn:Hk; simpl.
      * apply IH.
      * rewrite IH, <- app_assoc. reflexivity.
Qed.

(** The store the first loop leaves: the ["self"] links of the list are
    relabelled ["canonical"], every other object is as it was. *)
Lemma mark_links_store (ls : list loc) :
  forall h acc a,
    fst (mark_links ls h acc) a =
    if existsb (Nat.eqb a) ls && String.eqb (rel (h a)) "self"
    then set_rel (h a) "canonical" else h a.
Proof.
  induction ls as [| link rest IH]; intros h acc a; simpl.
  - reflexivity.
  - destruct (String.eqb (rel (h link)) "self") eqn:Hself.
    + rewrite IH. unfold store_set.
      destruct (Nat.eqb a link) eqn:E; simpl.
      * apply Nat.eqb_eq in E. subst a. rewrite Hself.
        rewrite andb_false_r. reflexivity.
      * reflexivity.
    + assert (Hstep : forall acc',
                 fst (mark_links rest h acc') a =
                 if (Nat.eqb a link || existsb (Nat.eqb a) rest)
                    && String.eqb (rel (h a)) "self"
                 then set_rel (h a) "canonical" else h a).
      { intros acc'. rewrite IH.
        destruct (Nat.eqb a link) eqn:E; simpl; [| reflexivity].
        apply Nat.eqb_eq in E. subst a. rewrite Hself.
        now rewrite andb_false_r. }
      destruct (negb (rel_in (rel (h link)) kept_rels)); apply Hstep.
Qed.

Lemma list_remove_skip (P : loc -> bool) (x : loc) (pre rest : list loc) :
  Forall (fun a => P a = false) pre -> P x = true ->
  list_remove x (pre ++ x :: rest) = Some (pre ++ rest)%list.
Proof.
  intros Hpre Hx. induction pre as [| y pre IH]; simpl.
  - now rewrite Nat.eqb_refl.
  - inversion Hpre as [| ? ? Hy Hpre']; subst.
    destruct (Nat.eqb y x) eqn:E.
    + apply Nat.eqb_eq in E. subst y. congruence.
    + now rewrite (IH Hpre').
Qed.

(** Removing, one [remove] at a time, the elements of a list that satisfy
    [P] leaves the others in their order, and no [remove] fails. *)
Lemma remove_links_filter (P : loc -> bool) (ls : list loc) :
  forall pre,
    Forall (fun a => P a = false) pre ->
    remove_links (filter P ls) (pre ++ ls)
    = Ok (pre ++ filter (fun a => negb (P a)) ls)%list.
Proof.
  induction ls as [| x rest IH]; intros pre Hpre; simpl.
  - reflexivity.
  - destruct (P x) eqn:Hx; simpl.
    + rewrite (list_remove_skip P x pre rest Hpre Hx). now apply IH.
    + replace (pre ++ x :: rest)%list with ((pre ++ [x]) ++ rest)%list
        by now rewrite <- app_assoc.
      rewrite IH.
      * now rewrite <- app_assoc.
      * apply Forall_app. split; [assumption | now constructor].
Qed.

(** The transform in closed form: it never raises, the links left are the
    retained ones in their order, and the store is relabelled. *)
Lemma prepare_closed_form (item : Item) (h : store) :
  prepare_item_for_indexing item h
  = (Ok (set_links item (filter (retained h) (links item))),
     fst (mark_links (links item) h [])).
Proof.
  unfold prepare_item_for_indexing.
  pose proof (mark_links_queue (links item) h []) as Hq.
  destruct (mark_links (links item) h []) as [h' queue]. simpl in *.
  subst queue.
  pose proof (remove_links_filter (disposable h) (links item) [] (Forall_nil _))
    as Hr.
  simpl in Hr. rewrite Hr. do 3 f_equal.
  apply filter_ext. intros a. unfold disposable. now rewrite negb_involutive.
Qed.

Lemma mem_loc_In (a : loc) (ls : list loc) :
  existsb (Nat.eqb a) ls = true <-> In a ls.
Proof.
  rewrite existsb_exists. split.
  - intros [x [Hin E]]. apply Nat.eqb_eq in E. now subst.
  - intros Hin. exists a. split; [assumption | apply Nat.eqb_refl].
Qed.

End IndexingFacts.

Section MetadataOnly.
Context {Ext : Type} {D : Deployment Ext}.
Import IndexingFacts.

(** The handler's call never raises, and touches nothing but the store. *)
Lemma prepare_run (item : Item) (st : State Ext) :
  prepare_item_for_indexing item st
  = (Ok (set_links item (filter (Indexing.retained (heap st)) (links item))),
     mkState (event st) (fst (Indexing.mark_links (links item) (heap st) []))
             (world st) (trace st)).
Proof.
  unfold prepare_item_for_indexing. now rewrite prepare_closed_form.
Qed.

(** C1. An item processed with [download_assets] false goes through the
    metadata-only transform.  After it, every link of the item has a
    relation among "canonical", "collection" and "root"; every link whose
    relation was "self" before is still a link of the item and its
    relation is now "canonical"; no link with relation "self" is left.
    The transform always returns. *)
Theorem metadata_only_links (item : Item) (st : State Ext) :
  (forall download_assets,
      Py.truthy download_assets = false ->
      transform_item download_assets item st
      = prepare_item_for_indexing item st) /\
  exists item' st',
    prepare_item_for_indexing item st = (Ok item', st') /\
    (forall a, In a (links item') -> In (rel (heap st' a)) Indexing.kept_rels) /\
    (forall a, In a (links item) -> rel (heap st a) = "self" ->
               In a (links item') /\ rel (heap st' a) = "canonical") /\
    (forall a, In a (links item') -> rel (heap st' a) <> "self").
Proof.
  split; [intros download_assets Hoff; unfold transform_item; now rewrite Hoff |].
  eexists. eexists. split; [apply prepare_run |].
  cbn [links set_links heap].
  assert (Hkept : forall a,
             In a (filter (Indexing.retained (heap st)) (links item)) ->
             In (rel (fst (Indexing.mark_links (links item) (heap st) []) a)) Indexing.kept_rels).
  { intros a Ha. apply filter_In in Ha. destruct Ha as [Hin Hret].
    rewrite mark_links_store.
    apply mem_loc_In in Hin. rewrite Hin. cbn [andb].
    destruct (String.eqb (rel (heap st a)) "self") eqn:Hself.
    - simpl. now left.
    - unfold Indexing.retained in Hret. rewrite Hself in Hret.
      now apply rel_in_In. }
  split; [exact Hkept | split].
  - intros a Hin Hself. split.
    + apply filter_In. split; [assumption |].
      unfold Indexing.retained. rewrite Hself. reflexivity.
    + rewrite mark_links_store.
      apply mem_loc_In in Hin. rewrite Hin, Hself. reflexivity.
  - intros a Ha Hself. specialize (Hkept a Ha). rewrite Hself in Hkept.
    simpl in Hkept. intuition discriminate.
Qed.

(** C10. The metadata-only transform changes nothing but the item's
    links: the item's id, assets and remaining fields are the same; the
    links left are the Indexing.retained ones in their original order; a link
    object keeps its target and its other fields, and only the "self"
    links of the item are relabelled; the payload, the outside world and
    the trace are untouched. *)
Theorem metadata_only_frame (item : Item) (st : State Ext) :
  exists item' st',
    prepare_item_for_indexing item st = (Ok item', st') /\
    id item' = id item /\
    assets item' = assets item /\
    item_extra item' = item_extra item /\
    links item' = filter (Indexing.retained (heap st)) (links item) /\
    (forall a, target (heap st' a) = target (heap st a) /\
               link_extra (heap st' a) = link_extra (heap st a)) /\
    (forall a, ~ (In a (links item) /\ rel (heap st a) = "self") ->
               heap st' a = heap st a) /\
    event st' = event st /\ world st' = world st /\ trace st' = trace st.
Proof.
  eexists. eexists. split; [apply prepare_run |].
  cbn [id assets item_extra links set_links heap event world trace].
  repeat (split; [reflexivity |]).
  split; [| split; [| repeat split]].
  - intros a. rewrite mark_links_store.
    destruct (existsb (Nat.eqb a) (links item)
              && String.eqb (rel (heap st a)) "self"); split; reflexivity.
  - intros a Hnot. rewrite mark_links_store.
    destruct (existsb (Nat.eqb a) (links item)) eqn:Hin; [| reflexivity].
    destruct (String.eqb (rel (heap st a)) "self") eqn:Hself; [| reflexivity].
    exfalso. apply Hnot. split.
    + now apply mem_loc_In.
    + now apply String.eqb_eq.
Qed.

End MetadataOnly.

(** ** Dates *)

Module DatetimeFacts.
Import Datetime Text.

Lemma digit_range (c : ascii) (z : Z) :
  digit c = Some z -> (0 <= z <= 9)%Z /\ c = digit_char z.
Proof.
  unfold digit, digit_char. intros H.
  destruct ((48 <=? Z.of_N (N_of_ascii c)) && (Z.of_N (N_of_ascii c) <=? 57))%Z
    eqn:E; [| discriminate].
  injection H as <-. apply andb_prop in E. destruct E as [E1 E2].
  apply Z.leb_le in E1, E2. split; [lia |].
  replace (Z.of_N (N_of_ascii c) - 48 + 48)%Z with (Z.of_N (N_of_ascii c))
    by lia.
  now rewrite N2Z.id, ascii_N_embedding.
Qed.

Lemma in_decimal_digits (z : Z) : (0 <= z <= 9)%Z -> In z decimal_digits.
Proof.
  intros H. unfold decimal_digits. simpl.
  assert (z = 0 \/ z = 1 \/ z = 2 \/ z = 3 \/ z = 4 \/ z = 5 \/ z = 6
          \/ z = 7 \/ z = 8 \/ z = 9)%Z as Hz by lia.
  intuition auto.
Qed.

(** Two and four decimal digits print back as themselves, checked on
    every combination. *)
Lemma pad2_digits (a b : Z) :
  (0 <= a <= 9)%Z -> (0 <= b <= 9)%Z ->
  pad 2 (10 * a + b) = String (digit_char a) (str1 (digit_char b)).
Proof.
  intros Ha Hb.
  assert (Hall :
            forallb (fun a => forallb (fun b =>
              String.eqb (pad 2 (10 * a + b))
                         (String (digit_char a) (str1 (digit_char b))))
              decimal_digits) decimal_digits = true) by (vm_compute; reflexivity).
  rewrite forallb_forall in Hall.
  specialize (Hall a (in_decimal_digits a Ha)).
  rewrite forallb_forall in Hall.
  specialize (Hall b (in_decimal_digits b Hb)).
  now apply String.eqb_eq.
Qed.

Lemma pad4_digits (a b c d : Z) :
  (0 <= a <= 9)%Z -> (0 <= b <= 9)%Z -> (0 <= c <= 9)%Z -> (0 <= d <= 9)%Z ->
  pad 4 (1000 * a + 100 * b + 10 * c + d)
  = String (digit_char a) (String (digit_char b)
      (String (digit_char c) (str1 (digit_char d)))).
Proof.
  intros Ha Hb Hc Hd.
  assert (Hall :
            forallb (fun a => forallb (fun b => forallb (fun c => forallb (fun d =>
              String.eqb (pad 4 (1000 * a + 100 * b + 10 * c + d))
                         (String (digit_char a) (String (digit_char b)
                            (String (digit_char c) (str1 (digit_char d))))))
              decimal_digits) decimal_digits) decimal_digits) decimal_digits
            = true) by (vm_compute; reflexivity).
  rewrite forallb_forall in Hall.
  specialize (Hall a (in_decimal_digits a Ha)).
  rewrite forallb_forall in Hall.
  specialize (Hall b (in_decimal_digits b Hb)).
  rewrite forallb_forall in Hall.
  specialize (Hall c (in_decimal_digits c Hc)).
  rewrite forallb_forall in Hall.
  specialize (Hall d (in_decimal_digits d Hd)).
  now apply String.eqb_eq.
Qed.

(** A text of the shape [dddd-dd-dd] is the date text of its fields. *)
Lemma date_fields_text (s : string) (y m d : Z) :
  date_fields s = Some (y, m, d) -> date_text (midnight y m d) = s.
Proof.
  unfold date_fields. intros H.
  repeat match type of H with
         | match ?x with EmptyString => _ | String _ _ => _ end = _ =>
             destruct x; try discriminate
         end.
  repeat match type of H with
         | match digit ?c with Some _ => _ | None => _ end = _ =>
             let E := fresh "E" in
             destruct (digit c) eqn:E; try discriminate;
             apply digit_range in E; destruct E as [? ->]
         end.
  match type of H with
  | (if ?c then _ else _) = _ => destruct c eqn:Hd; try discriminate
  end.
  apply andb_prop in Hd. destruct Hd as [Hd1 Hd2].
  unfold is_dash in Hd1, Hd2. apply Ascii.eqb_eq in Hd1, Hd2. subst.
  match type of H with
  | Some (?a, ?b, ?c) = _ =>
      assert (Hy : y = a) by congruence;
      assert (Hm : m = b) by congruence;
      assert (Hday : d = c) by congruence
  end.
  subst y m d. clear H.
  unfold date_text, midnight. cbn [year month day].
  rewrite pad4_digits, !pad2_digits by assumption.
  reflexivity.
Qed.

(** The fields of a text of the shape [dddd-dd-dd] are what two and four
    digits can write. *)
Lemma date_fields_range (s : string) (y m d : Z) :
  date_fields s = Some (y, m, d) ->
  (0 <= y <= 9999 /\ 0 <= m <= 99 /\ 0 <= d <= 99)%Z.
Proof.
  unfold date_fields. intros H.
  repeat match type of H with
         | match ?x with EmptyString => _ | String _ _ => _ end = _ =>
             destruct x; try discriminate
         end.
  repeat match type of H with
         | match digit ?c with Some _ => _ | None => _ end = _ =>
             let E := fresh "E" in
             destruct (digit c) eqn:E; try discriminate;
             apply digit_range in E; destruct E as [? _]
         end.
  match type of H with
  | (if ?c then _ else _) = _ => destruct c; try discriminate
  end.
  match type of H with
  | Some (?a, ?b, ?c) = _ =>
      assert (Hy : y = a) by congruence;
      assert (Hm : m = b) by congruence;
      assert (Hday : d = c) by congruence
  end.
  subst y m d. lia.
Qed.

Section ParseFacts.
Variable other : string -> iso_error + datetime.

(** A valid date of the shape [dddd-dd-dd] parses to its midnight. *)
Lemma fromisoformat_valid (s : string) (y m d : Z) :
  date_fields s = Some (y, m, d) ->
  valid_date y m d = true ->
  fromisoformat other s = inr (midnight y m d).
Proof.
  intros Hf Hv. unfold fromisoformat. rewrite Hf.
  unfold valid_date in Hv.
  repeat (apply andb_prop in Hv; destruct Hv as [Hv ?]).
  repeat match goal with H : _ = true |- _ => rewrite H; clear H end.
  reflexivity.
Qed.

(** An impossible date of that shape is refused by the first field that
    is out of range. *)
Lemma fromisoformat_impossible (s : string) (y m d : Z) :
  date_fields s = Some (y, m, d) ->
  valid_date y m d = false ->
  (y = 0 /\ fromisoformat other s = inl (YearOutOfRange 0))%Z
  \/ ((1 <= y)%Z /\ (m = 0 \/ 12 < m)%Z
      /\ fromisoformat other s = inl MonthOutOfRange)
  \/ ((1 <= y)%Z /\ (1 <= m <= 12)%Z /\ (d = 0 \/ days_in_month y m < d)%Z
      /\ fromisoformat other s = inl DayOutOfRange).
Proof.
  intros Hf Hv. destruct (date_fields_range s y m d Hf) as (Hy & Hm & Hd).
  unfold fromisoformat. rewrite Hf. unfold valid_date in Hv.
  destruct (Z.leb_spec 1 y) as [Hy1 | Hy1]; cbn [andb negb].
  - destruct (Z.leb_spec y 9999) as [_ | Hy2]; [| lia]. cbn [andb negb].
    destruct (Z.leb_spec 1 m) as [Hm1 | Hm1]; cbn [andb negb].
    + destruct (Z.leb_spec m 12) as [Hm2 | Hm2]; cbn [andb negb].
      * destruct (Z.leb_spec 1 d) as [Hd1 | Hd1]; cbn [andb negb].
        -- destruct (Z.leb_spec d (days_in_month y m)) as [Hd2 | Hd2];
             cbn [andb negb].
           ++ discriminate Hv.
           ++ right. right. repeat split; lia.
        -- right. right. repeat split; lia.
      * right. left. repeat split; lia.
    + right. left. repeat split; lia.
  - left. assert (y = 0)%Z by lia. subst y. now split.
Qed.
End ParseFacts.

Lemma isoformat_midnight (y m d : Z) :
  isoformat (midnight y m d) = date_text (midnight y m d) ++ "T00:00:00".
Proof. reflexivity. Qed.

Lemma year_step (y : Z) :
  (1 <= y)%Z ->
  (days_before_year (y + 1)
   = days_before_year y + 365 + (if is_leap y then 1 else 0))%Z.
Proof.
  intros Hy. unfold days_before_year, is_leap.
  replace (y + 1 - 1)%Z with y by lia.
  destruct (Z.eqb_spec (y mod 4) 0); destruct (Z.eqb_spec (y mod 100) 0);
    destruct (Z.eqb_spec (y mod 400) 0); cbn [andb orb negb];
    Z.div_mod_to_equations; lia.
Qed.

Lemma month_step (y m : Z) :
  (1 <= m < 12)%Z ->
  (days_before_month y (m + 1) = days_before_month y m + days_in_month y m)%Z.
Proof.
  intros Hm.
  assert (m = 1 \/ m = 2 \/ m = 3 \/ m = 4 \/ m = 5 \/ m = 6 \/ m = 7
          \/ m = 8 \/ m = 9 \/ m = 10 \/ m = 11)%Z as Hcases by lia.
  unfold days_before_month, days_in_month.
  repeat (destruct Hcases as [-> | Hcases]); [.. | subst m];
    cbn; destruct (is_leap y); reflexivity.
Qed.

Lemma days_in_month_bounds (y m : Z) : (28 <= days_in_month y m <= 31)%Z.
Proof.
  unfold days_in_month.
  destruct (m =? 2)%Z; [destruct (is_leap y); lia |].
  destruct ((m =? 4) || (m =? 6) || (m =? 9) || (m =? 11))%Z; lia.
Qed.

(** [timedelta(days=1)] on a valid date before 9999-12-31 gives the next
    calendar day: a valid date whose ordinal is one more. *)
Lemma next_day (y m d : Z) :
  valid_date y m d = true ->
  ((y <? 9999) || (m <? 12) || (d <? 31))%Z = true ->
  exists y' m' d',
    add_one_day (midnight y m d) = Some (midnight y' m' d') /\
    valid_date y' m' d' = true /\
    (toordinal y' m' d' = toordinal y m d + 1)%Z.
Proof.
  unfold valid_date. intros Hv Hlast.
  repeat (apply andb_prop in Hv; destruct Hv as [Hv ?]).
  repeat match goal with
         | H : (_ <=? _)%Z = true |- _ => apply Z.leb_le in H
         end.
  pose proof (days_in_month_bounds y m) as Hdim.
  unfold add_one_day, midnight. cbn [year month day hour minute second
                                       microsecond utcoffset].
  destruct (Z.ltb_spec d (days_in_month y m)) as [Hd | Hd].
  - exists y, m, (d + 1)%Z. split; [reflexivity | split].
    + unfold valid_date.
      repeat (apply andb_true_intro; split); apply Z.leb_le; lia.
    + unfold toordinal. lia.
  - destruct (Z.ltb_spec m 12) as [Hm | Hm].
    + exists y, (m + 1)%Z, 1%Z. split; [reflexivity | split].
      * unfold valid_date.
        pose proof (days_in_month_bounds y (m + 1)).
        repeat (apply andb_true_intro; split); apply Z.leb_le; lia.
      * unfold toordinal. rewrite month_step by lia. lia.
    + assert (m = 12)%Z by lia. subst m.
      assert (d = 31)%Z by (unfold days_in_month in *; simpl in *; lia).
      subst d.
      destruct (Z.ltb_spec y 9999) as [Hy | Hy].
      * exists (y + 1)%Z, 1%Z, 1%Z. split; [reflexivity | split].
        -- unfold valid_date.
           repeat (apply andb_true_intro; split); apply Z.leb_le;
             unfold days_in_month; simpl; lia.
        -- unfold toordinal. rewrite year_step by lia.
           unfold days_before_month. simpl.
           destruct (is_leap y), (is_leap (y + 1)); lia.
      * exfalso.
        apply orb_prop in Hlast. destruct Hlast as [Hl | Hl];
          [apply orb_prop in Hl; destruct Hl as [Hl | Hl] |];
          first [discriminate Hl | apply Z.ltb_lt in Hl; lia].
Qed.

End DatetimeFacts.

(** ** Running the monad *)

Section TripleRules.
Context {S : Type}.

Lemma triple_ret {A} (a : A) (P : S -> Prop) Q E :
  (forall s, P s -> Q a s) -> triple P (ret a) Q E.
Proof. intros H s Hs. now apply H. Qed.

Lemma triple_raise {A} (e : exn) (P : S -> Prop) (Q : A -> S -> Prop) E :
  (forall s, P s -> E e s) -> triple P (raise e) Q E.
Proof. intros H s Hs. now apply H. Qed.

Lemma triple_lift {A} (r : Result A) (P : S -> Prop) Q E :
  (forall s, P s -> match r with Ok a => Q a s | Raise e => E e s end) ->
  triple P (lift r) Q E.
Proof. intros H s Hs. unfold lift. specialize (H s Hs). now destruct r. Qed.

Lemma triple_bind {A B} (m : M S A) (f : A -> M S B) (P : S -> Prop)
      (Q : A -> S -> Prop) (R : B -> S -> Prop) E :
  triple P m Q E -> (forall a, triple (Q a) (f a) R E) ->
  triple P (bind m f) R E.
Proof.
  intros Hm Hf s Hs. unfold bind. specialize (Hm s Hs).
  destruct (m s) as [[a | e] s1]; [now apply Hf | assumption].
Qed.

Lemma triple_try {A} (m : M S A) (handler : exn -> M S A) (P : S -> Prop)
      (Q : A -> S -> Prop) (E' E : exn -> S -> Prop) :
  triple P m Q E' -> (forall e, triple (E' e) (handler e) Q E) ->
  triple P (try_except m handler) Q E.
Proof.
  intros Hm Hh s Hs. unfold try_except. specialize (Hm s Hs).
  destruct (m s) as [[a | e] s1]; [assumption | now apply Hh].
Qed.

Lemma triple_weaken {A} (m : M S A) (P P' : S -> Prop)
      (Q Q' : A -> S -> Prop) (E E' : exn -> S -> Prop) :
  triple P m Q E ->
  (forall s, P' s -> P s) ->
  (forall a s, Q a s -> Q' a s) ->
  (forall e s, E e s -> E' e s) ->
  triple P' m Q' E'.
Proof.
  intros Hm HP HQ HE s Hs. specialize (Hm s (HP s Hs)).
  destruct (m s) as [[a | e] s1]; [now apply HQ | now apply HE].
Qed.
End TripleRules.

Lemma append_assoc (a b c : string) : (a ++ b) ++ c = a ++ b ++ c.
Proof. induction a as [| ch a IH]; simpl; [reflexivity | now rewrite IH]. Qed.

(** Unfold one level of the monad and split on what the collaborators and
    the pure steps return. *)
Ltac run_monad :=
  unfold bind, try_except, ret, raise, lift, log, call, emit,
    get_event, set_event in *;
  cbn [event heap world trace fst snd] in *.

(** ** The date of the query *)

Section DateFacts.
Context {Ext : Type} {D : Deployment Ext}.
Import Datetime DatetimeFacts.

Lemma has_slash_text (s : string) :
  has_slash (VStr s) = Ok (Text.contains "/" s).
Proof. reflexivity. Qed.

(** What the search receives is what lines 150-157 computed; when they
    raise, the catalog is not searched. *)
Lemma query_passes_datetime (tile date max_items download_assets : value)
      (st : State Ext) :
  fst (client_open STAC_API_URL API_MODIFIER (world st)) = inr tt ->
  match datetime_query date with
  | Ok dq =>
      In (Search API_MODIFIER COLLECTION dq tile max_items)
         (trace (snd (query_planetary_computer tile date max_items
                                               download_assets st)))
  | Raise e =>
      query_planetary_computer tile date max_items download_assets st
      = (Raise e,
         mkState (event st) (heap st)
                 (snd (client_open STAC_API_URL API_MODIFIER (world st)))
                 (trace st ++ [Log INFO (Querying tile date max_items);
                               ClientOpen STAC_API_URL API_MODIFIER;
                               Log ERROR (ErrorQuerying (exn_str e))]))
  end.
Proof.
  intros Hopen. unfold query_planetary_computer. run_monad.
  destruct (client_open STAC_API_URL API_MODIFIER (world st)) as [[m | []] w1];
    [discriminate |]. clear Hopen.
  cbn [event heap world trace fst snd].
  destruct (datetime_query date) as [dq | e];
    cbn [event heap world trace fst snd].
  - destruct (search_items API_MODIFIER COLLECTION dq tile max_items (heap st) w1)
      as [[[m | items] h1] w2]; cbn [event heap world trace fst snd].
    + rewrite !in_app_iff. simpl. intuition auto.
    + destruct (Py.truthy download_assets);
        [destruct (Nat.ltb 20 (List.length items)) |];
        cbn [event heap world trace fst snd]; rewrite !in_app_iff; simpl;
        intuition auto.
  - rewrite <- !app_assoc. reflexivity.
Qed.

(** A date that lines 150-157 refuse stops the query before the search:
    the query raises, and what it has added to the trace holds no
    search; once the client has opened, the exception is the date's. *)
Lemma query_stops_at_date (tile date max_items download_assets : value)
      (e : exn) (st : State Ext) :
  datetime_query date = Raise e ->
  exists e' st',
    query_planetary_computer tile date max_items download_assets st
    = (Raise e', st')
    /\ (fst (client_open STAC_API_URL API_MODIFIER (world st)) = inr tt ->
        e' = e)
    /\ appended (fun x => match x with
                          | Search _ _ _ _ _ => False
                          | _ => True
                          end)
                (trace st) st'.
Proof.
  intros Hdate. destruct st as [ev h w t].
  unfold query_planetary_computer, appended. run_monad.
  destruct (client_open STAC_API_URL API_MODIFIER w) as [[m | []] w1];
    cbn [event heap world trace fst snd].
  - eexists. eexists. split; [reflexivity |].
    split; [intros H; discriminate H |].
    exists [Log INFO (Querying tile date max_items);
            ClientOpen STAC_API_URL API_MODIFIER;
            Log ERROR (ErrorQuerying m)].
    cbn [trace]. split; [now rewrite <- !app_assoc |].
    repeat constructor.
  - rewrite Hdate. cbn [event heap world trace fst snd].
    eexists. eexists. split; [reflexivity |].
    split; [reflexivity |].
    exists [Log INFO (Querying tile date max_items);
            ClientOpen STAC_API_URL API_MODIFIER;
            Log ERROR (ErrorQuerying (exn_str e))].
    cbn [trace]. split; [now rewrite <- !app_assoc |].
    repeat constructor.
Qed.

(** C4, amended.  A date text that contains "/" is passed to the catalog
    search as it is.  A date text without "/" that is a valid calendar
    date [YYYY-MM-DD] before 9999-12-31 becomes the range from the
    midnight of that day to the midnight of the next calendar day, both
    ends written as ISO datetimes: the original text followed by
    [T00:00:00], a "/", and the next day followed by [T00:00:00].  A date
    text without "/" that [fromisoformat] refuses makes lines 150-157
    raise its [ValueError] (for a text that is no date, "Invalid isoformat
    string: " and the [repr] of the text): the query raises and does not
    search the catalog, and once the client has opened what it raises is
    that [ValueError].  For an impossible date of the shape [YYYY-MM-DD]
    the message is that of the first field out of range: the year 0, a
    month outside 1..12, a day outside the month.  Whatever text these
    lines produce is the [datetime] argument of the search. *)
Theorem date_normalization (s : string) :
  (Text.contains "/" s = true -> datetime_query (VStr s) = Ok (VStr s)) /\
  (Text.contains "/" s = false ->
   forall y m d,
     date_fields s = Some (y, m, d) ->
     valid_date y m d = true ->
     ((y <? 9999) || (m <? 12) || (d <? 31))%Z = true ->
     exists y' m' d',
       valid_date y' m' d' = true /\
       (toordinal y' m' d' = toordinal y m d + 1)%Z /\
       datetime_query (VStr s)
       = Ok (VStr (s ++ "T00:00:00/" ++ date_text (midnight y' m' d')
                     ++ "T00:00:00"))) /\
  (Text.contains "/" s = false ->
   forall err,
     fromisoformat fromisoformat_other s = inl err ->
     datetime_query (VStr s) = Raise (ValueError (iso_error_text s err))
     /\ (err = InvalidIsoformat ->
         datetime_query (VStr s)
         = Raise (ValueError ("Invalid isoformat string: " ++ Text.repr s)))
     /\ forall tile max_items download_assets st,
         exists e st',
           query_planetary_computer tile (VStr s) max_items
                                    download_assets st
           = (Raise e, st')
           /\ (fst (client_open STAC_API_URL API_MODIFIER (world st))
               = inr tt ->
               e = ValueError (iso_error_text s err))
           /\ appended (fun x => match x with
                                 | Search _ _ _ _ _ => False
                                 | _ => True
                                 end)
                       (trace st) st') /\
  (Text.contains "/" s = false ->
   forall y m d,
     date_fields s = Some (y, m, d) ->
     valid_date y m d = false ->
     (y = 0%Z
      /\ datetime_query (VStr s)
         = Raise (ValueError "year 0 is out of range"))
     \/ ((1 <= y)%Z /\ (m = 0 \/ 12 < m)%Z
         /\ datetime_query (VStr s)
            = Raise (ValueError "month must be in 1..12"))
     \/ ((1 <= y)%Z /\ (1 <= m <= 12)%Z
         /\ (d = 0 \/ days_in_month y m < d)%Z
         /\ datetime_query (VStr s)
            = Raise (ValueError "day is out of range for month"))) /\
  (forall tile max_items download_assets st dq,
      fst (client_open STAC_API_URL API_MODIFIER (world st)) = inr tt ->
      datetime_query (VStr s) = Ok dq ->
      In (Search API_MODIFIER COLLECTION dq tile max_items)
         (trace (snd (query_planetary_computer tile (VStr s) max_items
                                               download_assets st)))).
Proof.
  split; [| split; [| split; [| split]]].
  - intros Hs. unfold datetime_query. now rewrite has_slash_text, Hs.
  - intros Hs y m d Hf Hv Hlast.
    destruct (next_day y m d Hv Hlast) as (y' & m' & d' & Hnext & Hv' & Hord).
    exists y', m', d'. split; [assumption | split; [assumption |]].
    unfold datetime_query. rewrite has_slash_text, Hs.
    rewrite (fromisoformat_valid _ s y m d Hf Hv), Hnext.
    rewrite !isoformat_midnight, (date_fields_text s y m d Hf).
    now rewrite !append_assoc.
  - intros Hs err Herr.
    assert (Hdate : datetime_query (VStr s)
                    = Raise (ValueError (iso_error_text s err))).
    { unfold datetime_query. now rewrite has_slash_text, Hs, Herr. }
    split; [exact Hdate |].
    split; [intros ->; exact Hdate |].
    intros tile max_items download_assets st.
    now apply query_stops_at_date.
  - intros Hs y m d Hf Hv.
    unfold datetime_query. rewrite has_slash_text, Hs.
    destruct (fromisoformat_impossible fromisoformat_other s y m d Hf Hv)
      as [[Hy ->] | [(Hy & Hm & ->) | (Hy & Hm & Hd & ->)]].
    + left. now split.
    + right. left. now repeat split.
    + right. right. now repeat split.
  - intros tile max_items download_assets st dq Hopen Hdq.
    pose proof (query_passes_datetime tile (VStr s) max_items
                  download_assets st Hopen) as H.
    now rewrite Hdq in H.
Qed.

End DateFacts.

(** The date text 2024-06-01 reaches the search as
    [2024-06-01T00:00:00/2024-06-02T00:00:00]. *)
Example single_date_query :
  datetime_query (D := Scripted.full) (VStr "2024-06-01")
  = Ok (VStr "2024-06-01T00:00:00/2024-06-02T00:00:00").
Proof. reflexivity. Qed.

Example range_query :
  datetime_query (D := Scripted.full) (VStr "2024-06-01/2024-06-03")
  = Ok (VStr "2024-06-01/2024-06-03").
Proof. reflexivity. Qed.

(** C4 as stated fails: the range built for the single date 2024-06-01 is
    not written in the [YYYY-MM-DD] form of the original (it is not
    [2024-06-01/2024-06-02]), and the date text 2024-02-30, which holds no
    "/", is not converted to any range: the constructor of the date
    refuses the day, the call raises and the catalog is never searched. *)
Lemma date_normalization_counterexample :
  datetime_query (D := Scripted.full) (VStr "2024-06-01")
  <> Ok (VStr "2024-06-01/2024-06-02")
  /\ datetime_query (D := Scripted.full) (VStr "2024-02-30")
     = Raise (ValueError "day is out of range for month")
  /\ forall e,
       In e (trace (snd (lambda_handler (D := Scripted.full)
                           (Scripted.start
                              (Scripted.request "p1"
                                 (Scripted.task (VStr "33UUP")
                                                (VStr "2024-02-30") false))
                              Scripted.quiet)))) ->
       match e with Search _ _ _ _ _ => False | _ => True end.
Proof.
  split; [| split].
  - vm_compute. intros H. discriminate H.
  - reflexivity.
  - intros e He. vm_compute in He.
    repeat (destruct He as [<- | He]; [exact I |]). destruct He.
Qed.

(** ** Dictionaries *)

Module PyFacts.
Import Py.

Lemma key_eqb_str (k : key) (s : string) :
  key_eqb k (KStr s) = true -> k = KStr s.
Proof.
  destruct k; simpl; try discriminate.
  intros H. apply String.eqb_eq in H. now subst.
Qed.

Lemma key_eqb_str_refl (s : string) : key_eqb (KStr s) (KStr s) = true.
Proof. simpl. apply String.eqb_refl. Qed.

Lemma get_set_same (k : string) (v : value) (d : dict) :
  get (KStr k) (set (KStr k) v d) = Some v.
Proof.
  induction d as [| [k' v'] rest IH]; simpl.
  - now rewrite String.eqb_refl.
  - destruct (key_eqb k' (KStr k)) eqn:E; simpl; rewrite E; auto.
Qed.

Lemma get_set_other (a b : string) (v : value) (d : dict) :
  a <> b -> get (KStr a) (set (KStr b) v d) = get (KStr a) d.
Proof.
  intros Hab. induction d as [| [k' v'] rest IH]; simpl.
  - destruct (String.eqb b a) eqn:E; [| reflexivity].
    apply String.eqb_eq in E. congruence.
  - destruct (key_eqb k' (KStr b)) eqn:E; simpl.
    + apply key_eqb_str in E. subst k'. simpl.
      destruct (String.eqb b a) eqn:E'; [| reflexivity].
      apply String.eqb_eq in E'. congruence.
    + destruct (key_eqb k' (KStr a)); [reflexivity | exact IH].
Qed.


Lemma mem_true_get (k : key) (d : dict) :
  mem k d = true -> exists v, get k d = Some v.
Proof. unfold mem. destruct (get k d) as [v |]; [now exists v | discriminate]. Qed.

End PyFacts.

(** ** What the pipeline preserves *)

Ltac foreign_solve :=
  unfold foreign, config_error;
  let Hf := fresh "Hf" in
  intros Hf; first [discriminate Hf | injection Hf; simpl; discriminate].

Lemma datetime_query_foreign {Ext : Type} {D : Deployment Ext}
      (date : value) (e : exn) :
  datetime_query date = Raise e -> foreign e.
Proof.
  unfold datetime_query, has_slash.
  destruct date; try (intros H; injection H as <-; foreign_solve);
    try match goal with
        | |- context [if ?b then _ else _] => destruct b
        end;
    try discriminate;
    try (intros H; injection H as <-; foreign_solve).
  destruct (Datetime.fromisoformat fromisoformat_other s) as [err | start].
  - intros H; injection H as <-. destruct err; foreign_solve.
  - destruct (Datetime.add_one_day start); [discriminate |].
    intros H; injection H as <-; foreign_solve.
Qed.

Section Preservation.
Context {Ext : Type} {D : Deployment Ext}.
Variable I : State Ext -> Prop.
Hypothesis HI : effect_invariant I.

Ltac inv_close :=
  repeat first [ assumption
               | apply (inv_emit _ HI)
               | (eapply (inv_outside _ HI); eassumption) ].


Lemma log_keeps (lv : level) (r : record) E :
  triple I (log lv r) (fun _ s => I s) E.
Proof. intros [ev h w t] Hs. run_monad. inv_close. Qed.

Lemma get_event_keeps E : triple I get_event (fun _ s => I s) E.
Proof. intros s Hs. exact Hs. Qed.

Lemma call_keeps {A} (e : effect) (f : Ext -> (string + A) * Ext) :
  triple I (call e f) (fun _ s => I s) (fun x s => I s /\ foreign x).
Proof.
  intros [ev h w t] Hs. run_monad.
  destruct (f w) as [[m | a] w']; [split; [| foreign_solve] |]; inv_close.
Qed.

Lemma query_keeps (tile date max_items download_assets : value) :
  triple I (query_planetary_computer tile date max_items download_assets)
         (fun _ s => I s) (fun e s => I s /\ foreign e).
Proof.
  intros [ev h w t] Hs. unfold query_planetary_computer. run_monad.
  destruct (client_open STAC_API_URL API_MODIFIER w) as [[m | []] w1];
    cbn [event heap world trace fst snd].
  - split; [inv_close | foreign_solve].
  - destruct (datetime_query date) as [dq | e] eqn:Hdq;
      cbn [event heap world trace fst snd].
    + destruct (search_items API_MODIFIER COLLECTION dq tile max_items h w1)
        as [[[m | items] h1] w2]; cbn [event heap world trace fst snd].
      * split; [inv_close | foreign_solve].
      * destruct (Py.truthy download_assets);
          [destruct (Nat.ltb 20 (List.length items)) |];
          cbn [event heap world trace fst snd]; inv_close.
    + split; [inv_close | now apply (datetime_query_foreign date)].
Qed.

Lemma process_asset_keeps (item : Item) (k : string) (a : Asset) E :
  triple I (process_asset item k a) (fun _ s => I s) E.
Proof.
  intros [ev h w t] Hs. unfold process_asset.
  destruct (is_geotiff a); [| exact Hs]. run_monad.
  destruct (requests_get (href a) w) as [[m | content] w1];
    cbn [event heap world trace fst snd]; [inv_close |].
  match goal with
  | |- context [put_object ?b ?key ?body ?ct w1] =>
      destruct (put_object b key body ct w1) as [[m | []] w2]
  end; cbn [event heap world trace fst snd]; [inv_close |].
  destruct (assign_href k (s3_href_of (id item) k) (assets item));
    cbn [event heap world trace fst snd]; inv_close.
Qed.

Lemma process_assets_keeps (signed : list (string * Asset)) E :
  forall item, triple I (process_assets item signed) (fun _ s => I s) E.
Proof.
  induction signed as [| [k a] rest IH]; intros item; cbn [process_assets].
  - now apply triple_ret.
  - eapply triple_bind; [apply process_asset_keeps | intros item'; apply IH].
Qed.

Lemma download_keeps (item : Item) :
  triple I (download_and_update_item item)
         (fun _ s => I s) (fun e s => I s /\ foreign e).
Proof.
  unfold download_and_update_item.
  eapply triple_bind; [apply log_keeps | intros ?].
  eapply triple_bind; [apply call_keeps | intros signed].
  apply process_assets_keeps.
Qed.

Lemma prepare_keeps (item : Item) E :
  triple I (prepare_item_for_indexing item) (fun _ s => I s) E.
Proof.
  intros [ev h w t] Hs. rewrite prepare_run.
  cbn [event heap world trace]. inv_close.
Qed.

Lemma process_items_keeps (download_assets : value) (items : list Item) :
  forall acc,
    triple I (process_items download_assets items acc)
           (fun _ s => I s) (fun e s => I s /\ foreign e).
Proof.
  induction items as [| item rest IH]; intros acc; cbn [process_items].
  - now apply triple_ret.
  - eapply triple_bind.
    + destruct (Py.truthy download_assets);
        [apply download_keeps | apply prepare_keeps].
    + intros item'. eapply triple_bind; [| intros feature; apply IH].
      intros s Hs. exact Hs.
Qed.

Lemma should_upload_keeps (payload : dict) E :
  triple I (should_upload_to_s3 payload) (fun _ s => I s) E.
Proof.
  intros [ev h w t] Hs. unfold should_upload_to_s3, json_dumps. run_monad.
  destruct (Json.dumps (VDict payload));
    cbn [event heap world trace fst snd]; inv_close.
Qed.

Lemma upload_keeps (payload : dict) :
  triple I (upload_payload_to_s3 payload)
         (fun _ s => I s) (fun e s => I s /\ foreign e).
Proof.
  intros [ev h w t] Hs. unfold upload_payload_to_s3.
  destruct (bucket_unset CIRRUS_PAYLOAD_BUCKET).
  - split; [exact Hs | foreign_solve].
  - unfold getitem, json_dumps. run_monad.
    destruct (Py.get (KStr "id") payload) as [payload_id |];
      cbn [event heap world trace fst snd];
      [| split; [inv_close | foreign_solve]].
    destruct (Json.dumps (VDict payload)) as [body |];
      cbn [event heap world trace fst snd];
      [| split; [inv_close | foreign_solve]].
    match goal with
    | |- context [put_object ?b ?key ?bd ?ct w] =>
        destruct (put_object b key bd ct w) as [[m | []] w1]
    end; cbn [event heap world trace fst snd];
      [split; [inv_close | foreign_solve] | inv_close].
Qed.

Lemma ensure_list_keeps (k : string) E :
  closed_under_updates_of k I ->
  triple I (ensure_list k) (fun _ s => I s) E.
Proof.
  intros Hk [ev h w t] Hs. unfold ensure_list. run_monad.
  destruct (Py.mem (KStr k) ev) eqn:Hmem;
    cbn [negb event heap world trace fst snd]; [exact Hs |].
  now apply (inv_new _ _ Hk).
Qed.

Lemma extend_at_keeps (k method : string) (xs : list value) :
  closed_under_updates_of k I ->
  triple I (extend_at k method xs)
         (fun _ s => I s) (fun e s => I s /\ foreign e).
Proof.
  intros Hk [ev h w t] Hs. unfold extend_at. run_monad.
  destruct (Py.get (KStr k) ev) as [[] |] eqn:Hget;
    cbn [event heap world trace fst snd];
    try (split; [exact Hs | foreign_solve]).
  now apply (inv_more _ _ Hk).
Qed.

Lemma respond_keeps :
  triple I respond (fun _ s => I s) (fun e s => I s /\ foreign e).
Proof.
  unfold respond.
  eapply triple_bind; [apply get_event_keeps | intros ev].
  eapply triple_bind; [apply should_upload_keeps | intros upload].
  destruct upload.
  - eapply triple_bind; [apply upload_keeps | intros url].
    now apply triple_ret.
  - now apply triple_ret.
Qed.

Lemma process_and_respond_keeps (download_assets : value) (items : list Item) :
  closed_under_updates_of "features" I ->
  triple I (process_and_respond download_assets items)
         (fun _ s => I s) (fun e s => I s /\ foreign e).
Proof.
  intros Hfeatures. unfold process_and_respond.
  eapply triple_bind; [apply log_keeps | intros ?].
  eapply triple_bind; [apply process_items_keeps | intros feats].
  eapply triple_bind; [now apply ensure_list_keeps | intros ?].
  eapply triple_bind; [now apply extend_at_keeps | intros ?].
  eapply triple_bind; [apply log_keeps | intros ?].
  apply respond_keeps.
Qed.

(** Lines 77-111 keep the invariant, and never raise the validation's
    error. *)
Lemma pipeline_keeps (cfg : value * value * value * value) :
  closed_under_updates_of "features" I ->
  triple I (run_pipeline cfg) (fun _ s => I s) (fun e s => I s /\ foreign e).
Proof.
  intros Hfeatures.
  destruct cfg as [[[tile date] download_assets] max_items].
  unfold run_pipeline.
  eapply triple_bind; [apply log_keeps | intros ?].
  eapply triple_bind; [apply query_keeps | intros stac_items].
  now apply process_and_respond_keeps.
Qed.

Lemma read_config_keeps :
  triple I read_config (fun _ s => I s) (fun _ s => I s).
Proof.
  intros [ev h w t] Hs. unfold read_config, json_dumps. run_monad.
  destruct (Json.dumps (VDict ev)); cbn [event heap world trace fst snd];
    [| exact Hs].
  destruct (task_configuration ev); inv_close.
Qed.

Lemma body_keeps :
  closed_under_updates_of "features" I ->
  triple I handler_body (fun _ s => I s) (fun _ s => I s).
Proof.
  intros Hfeatures. unfold handler_body.
  eapply triple_bind; [apply read_config_keeps | intros cfg].
  eapply triple_weaken;
    [now apply pipeline_keeps | auto | auto | now intros e s []].
Qed.

(** The [except] block never returns: it raises the exception it caught,
    or the [AttributeError] of an [errors] that is no list. *)
Lemma on_exception_keeps (e : exn) :
  closed_under_updates_of "errors" I ->
  triple I (on_exception e) (fun _ _ => False)
         (fun e' s => I s /\ (e' = e \/ exists m, e' = AttributeError m)).
Proof.
  intros Herrors [ev h w t] Hs. unfold on_exception, ensure_list, extend_at.
  run_monad.
  destruct (Py.mem (KStr "errors") ev) eqn:Hmem;
    cbn [negb event heap world trace fst snd].
  - destruct (Py.get (KStr "errors") ev) as [[] |] eqn:Hget;
      cbn [event heap world trace fst snd];
      try (split; [inv_close | right; eexists; reflexivity]).
    + split; [| now left].
      apply (inv_more _ _ Herrors); [inv_close | assumption].
    + apply PyFacts.mem_true_get in Hmem. destruct Hmem as [v Hv]. congruence.
  - rewrite PyFacts.get_set_same. cbn [event heap world trace fst snd].
    split; [| now left].
    apply (inv_more _ _ Herrors); [| apply PyFacts.get_set_same].
    apply (inv_new _ _ Herrors); [inv_close | assumption].
Qed.

Lemma handler_keeps :
  closed_under_updates_of "features" I ->
  closed_under_updates_of "errors" I ->
  triple I lambda_handler (fun _ s => I s) (fun _ s => I s).
Proof.
  intros Hfeatures Herrors. unfold lambda_handler.
  eapply triple_try; [now apply body_keeps | intros e].
  eapply triple_weaken;
    [now apply on_exception_keeps | auto | contradiction | now intros e' s []].
Qed.

End Preservation.

(** ** Invariants of a run *)

Section Invariants.
Context {Ext : Type}.


Lemma holds_at_effects (k : string) (v : option value) :
  effect_invariant (Ext := Ext) (holds_at k v).
Proof. split; unfold holds_at; cbn; auto. Qed.

Lemma holds_at_closed (k k' : string) (v : option value) :
  k <> k' -> closed_under_updates_of (Ext := Ext) k' (holds_at k v).
Proof.
  intros Hk. split; unfold holds_at; cbn; intros;
    now rewrite PyFacts.get_set_other.
Qed.

Lemma traced_effects (x : effect) : effect_invariant (Ext := Ext) (traced x).
Proof.
  split; unfold traced; cbn; intros; [| assumption].
  apply in_or_app. now left.
Qed.

Lemma traced_closed (k : string) (x : effect) :
  closed_under_updates_of (Ext := Ext) k (traced x).
Proof. split; unfold traced; cbn; auto. Qed.




End Invariants.

(** ** The fatal path *)

Lemma set_set (k : string) (v1 v2 : value) (d : dict) :
  Py.set (KStr k) v2 (Py.set (KStr k) v1 d) = Py.set (KStr k) v2 d.
Proof.
  induction d as [| [k' v'] rest IH]; simpl.
  - now rewrite String.eqb_refl.
  - destruct (Py.key_eqb k' (KStr k)) eqn:E; simpl; rewrite E;
      [reflexivity | now rewrite IH].
Qed.

Section FatalPath.
Context {Ext : Type} {D : Deployment Ext}.

(** The [except] block on a payload whose [errors] is a sequence or is
    absent: one record is appended and the exception caught is raised. *)
Lemma on_exception_run (e : exn) (s : State Ext) :
  sequence_or_absent "errors" (event s) ->
  on_exception e s
  = (Raise e,
     mkState (Py.set (KStr "errors")
                     (VList (sequence_at "errors" (event s)
                               ++ [error_record e (utcnow (world s))])%list)
                     (event s))
             (heap s) (world s)
             (trace s ++ [Log ERROR (ErrorProcessingPayload (exn_str e))])).
Proof.
  destruct s as [ev h w t]. unfold sequence_or_absent, sequence_at.
  cbn [event heap world trace].
  intros [Habsent | [l Hl]]; unfold on_exception, ensure_list, extend_at, Py.mem;
    run_monad.
  - rewrite Habsent. cbn [negb event heap world trace fst snd].
    rewrite PyFacts.get_set_same. cbn [event heap world trace fst snd].
    now rewrite set_set.
  - rewrite Hl. cbn [negb event heap world trace fst snd].
    now rewrite Hl.
Qed.

(** The [try] block leaves the payload's [errors] as they were. *)
Lemma body_keeps_errors (st : State Ext) :
  holds_at "errors" (Py.get (KStr "errors") (event st))
           (snd (handler_body st)).
Proof.
  pose proof (body_keeps (holds_at "errors" (Py.get (KStr "errors") (event st)))
                (holds_at_effects _ _)
                (holds_at_closed "errors" "features" _ ltac:(discriminate))
                st eq_refl) as H.
  now destruct (handler_body st) as [[resp | e] s1].
Qed.

(** C8. When the pipeline raises, the handler does not return: it raises.
    On a payload whose [errors] is a sequence or is absent it raises the
    same exception, after appending to [errors] (created when absent)
    exactly one record: the mapping of [task] to the name of the task, of
    [error] to the text of the exception and of [timestamp] to the ISO
    text of [utcnow()], in this order; the rest of the payload is as the
    pipeline left it. *)
Theorem fatal_path (st : State Ext) (e : exn) (st1 : State Ext) :
  handler_body st = (Raise e, st1) ->
  (exists e' st', lambda_handler st = (Raise e', st')) /\
  (sequence_or_absent "errors" (event st) ->
   lambda_handler st
   = (Raise e,
      mkState (Py.set (KStr "errors")
                      (VList (sequence_at "errors" (event st)
                                ++ [VDict
                                      [(KStr "task",
                                        VStr "planetary-computer-to-s3");
                                       (KStr "error", VStr (exn_str e));
                                       (KStr "timestamp",
                                        VStr (Datetime.isoformat
                                                (utcnow (world st1))))]])%list)
                      (event st1))
              (heap st1) (world st1)
              (trace st1 ++ [Log ERROR (ErrorProcessingPayload (exn_str e))]))).
Proof.
  intros Hbody.
  pose proof (body_keeps_errors st) as Herr. rewrite Hbody in Herr.
  unfold holds_at in Herr. cbn [snd] in Herr.
  split.
  - unfold lambda_handler, try_except. rewrite Hbody.
    pose proof (on_exception_keeps (fun _ => True)
                  (Build_effect_invariant _ _ (fun _ _ _ _ _ _ => I)
                                          (fun _ _ _ _ _ _ _ => I))
                  e
                  (Build_closed_under_updates_of _ _ _
                     (fun _ _ _ _ _ _ => I) (fun _ _ _ _ _ _ _ _ => I))
                  st1 I) as H.
    destruct (on_exception e st1) as [[resp | e'] s'];
      [contradiction | now exists e', s'].
  - intros Htyped.
    assert (Htyped1 : sequence_or_absent "errors" (event st1)).
    { unfold sequence_or_absent in *. now rewrite Herr. }
    unfold lambda_handler, try_except. rewrite Hbody.
    rewrite (on_exception_run e st1 Htyped1).
    unfold sequence_at. now rewrite Herr.
Qed.

End FatalPath.

(** ** The features of the payload *)

Section RunLemmas.
Context {S : Type}.

Lemma bind_ok {A B} (m : M S A) (f : A -> M S B) (s s1 : S) (a : A) :
  m s = (Ok a, s1) -> bind m f s = f a s1.
Proof. intros H. unfold bind. now rewrite H. Qed.

Lemma bind_raise {A B} (m : M S A) (f : A -> M S B) (s s1 : S) (e : exn) :
  m s = (Raise e, s1) -> bind m f s = (Raise e, s1).
Proof. intros H. unfold bind. now rewrite H. Qed.


Lemma try_from {A} (m m' : M S A) (handler : exn -> M S A) (s s' : S) :
  m s = m' s' -> try_except m handler s = try_except m' handler s'.
Proof. intros H. unfold try_except. now rewrite H. Qed.

(** What a triple says of one run. *)
Lemma triple_run {A} (P : S -> Prop) (m : M S A) Q E (s : S) :
  triple P m Q E -> P s ->
  match fst (m s) with
  | Ok a => Q a (snd (m s))
  | Raise e => E e (snd (m s))
  end.
Proof.
  intros H Hs. specialize (H s Hs). now destruct (m s) as [[a | e] s1].
Qed.
End RunLemmas.

Section Features.
Context {Ext : Type} {D : Deployment Ext}.

Lemma bind_log {B} (lv : level) (r : record) (f : unit -> M (State Ext) B)
      (s : State Ext) :
  bind (log lv r) f s = f tt (emit (Log lv r) s).
Proof. reflexivity. Qed.




End Features.

(** ** Validation of the request *)

Section Validation.
Context {Ext : Type} {D : Deployment Ext}.

Lemma absent_or_empty_truthy (k : string) (tc : dict) :
  absent_or_empty k tc <-> Py.truthy (field k tc) = false.
Proof.
  unfold absent_or_empty, field. split.
  - intros [-> | [v [-> Hv]]]; [reflexivity | assumption].
  - destruct (Py.get (KStr k) tc) as [v |]; [| now left].
    intros Hv. right. now exists v.
Qed.

(** A field that holds a text is empty exactly when the text is. *)
Lemma absent_or_empty_text (k : string) (tc : dict) (s : string) :
  Py.get (KStr k) tc = Some (VStr s) -> (absent_or_empty k tc <-> s = "").
Proof.
  intros Hget. rewrite absent_or_empty_truthy. unfold field. rewrite Hget.
  simpl. rewrite negb_false_iff. apply String.eqb_eq.
Qed.

(** Lines 61-75 on a request that carries its task configuration. *)
Lemma task_configuration_run (ev : dict) (tc : dict) :
  task_config_of ev = Some tc ->
  task_configuration ev
  = if negb (Py.truthy (field "tile" tc))
       || negb (Py.truthy (field "date" tc))
    then Raise config_error
    else Ok (field "tile" tc, field "date" tc,
             match Py.get (KStr "download_assets") tc with
             | Some v => v
             | None => VBool false
             end,
             match Py.get (KStr "max_items") tc with
             | Some v => v
             | None => VInt 100
             end).
Proof.
  unfold task_config_of, task_configuration, getitem. intros Htc.
  destruct (Py.get (KStr "process") ev)
    as [[| | | | | [| [] rest] | |] |]; try discriminate.
  cbn [and_then getitem0 method_get].
  assert (Hfields : forall tc', tc' = tc ->
            and_then (method_get (VDict tc') "tile" VNone) (fun tile =>
            and_then (method_get (VDict tc') "date" VNone) (fun date =>
            and_then (method_get (VDict tc') "download_assets" (VBool false))
                     (fun download_assets =>
            and_then (method_get (VDict tc') "max_items" (VInt 100))
                     (fun max_items =>
            if negb (Py.truthy tile) || negb (Py.truthy date)
            then Raise config_error
            else Ok (tile, date, download_assets, max_items)))))
            = if negb (Py.truthy (field "tile" tc))
                 || negb (Py.truthy (field "date" tc))
              then Raise config_error
              else Ok (field "tile" tc, field "date" tc,
                       match Py.get (KStr "download_assets") tc with
                       | Some v => v | None => VBool false end,
                       match Py.get (KStr "max_items") tc with
                       | Some v => v | None => VInt 100 end)).
  { intros tc' ->. reflexivity. }
  destruct (Py.get (KStr "tasks") d) as [[| | | | | | | tasks] |];
    try discriminate; cbn [and_then method_get].
  - unfold TASK_NAME in Htc.
    destruct (Py.get (KStr "planetary-computer-to-s3") tasks)
      as [[| | | | | | | task_config] |]; try discriminate;
      cbn [and_then]; apply Hfields; congruence.
  - cbn [Py.get and_then]. apply Hfields. congruence.
Qed.

Lemma read_config_run (st : State Ext) (text : string) (tc : dict) :
  Json.dumps (VDict (event st)) = Some text ->
  task_config_of (event st) = Some tc ->
  read_config st
  = (if negb (Py.truthy (field "tile" tc))
        || negb (Py.truthy (field "date" tc))
     then Raise config_error
     else Ok (field "tile" tc, field "date" tc,
              match Py.get (KStr "download_assets") tc with
              | Some v => v
              | None => VBool false
              end,
              match Py.get (KStr "max_items") tc with
              | Some v => v
              | None => VInt 100
              end),
     emit (Log INFO (ProcessingEvent text)) st).
Proof.
  intros Htext Htc. unfold read_config, json_dumps. run_monad.
  rewrite Htext. cbn [event heap world trace fst snd].
  now rewrite (task_configuration_run _ _ Htc).
Qed.

(** The query logs its arguments and opens the catalog client, whatever
    happens next. *)
Lemma query_reaches (tile date max_items download_assets : value)
      (x : effect) :
  x = Log INFO (Querying tile date max_items) \/ x = ClientOpen STAC_API_URL API_MODIFIER ->
  triple (fun _ : State Ext => True)
         (query_planetary_computer tile date max_items download_assets)
         (fun _ s => traced x s) (fun e s => traced x s /\ foreign e).
Proof.
  intros Hx [ev h w t] _. unfold query_planetary_computer. run_monad.
  assert (Hin : forall more,
             In x (t ++ [Log INFO (Querying tile date max_items)]
                     ++ [ClientOpen STAC_API_URL API_MODIFIER] ++ more)%list).
  { intros more. rewrite !in_app_iff. simpl. destruct Hx as [-> | ->]; auto. }
  destruct (client_open STAC_API_URL API_MODIFIER w) as [[m | []] w1];
    cbn [event heap world trace fst snd].
  - split; [| foreign_solve]. unfold traced. cbn [trace].
    rewrite <- ?app_assoc. apply Hin.
  - destruct (datetime_query date) as [dq | e] eqn:Hdq;
      cbn [event heap world trace fst snd].
    + destruct (search_items API_MODIFIER COLLECTION dq tile max_items h w1)
        as [[[m | items] h1] w2]; cbn [event heap world trace fst snd].
      * split; [| foreign_solve]. unfold traced. cbn [trace].
        rewrite <- ?app_assoc. apply Hin.
      * destruct (Py.truthy download_assets);
          [destruct (Nat.ltb 20 (List.length items)) |];
          cbn [event heap world trace fst snd]; unfold traced; cbn [trace];
          rewrite <- ?app_assoc; apply Hin.
    + split; [| now apply (datetime_query_foreign date)].
      unfold traced. cbn [trace]. rewrite <- ?app_assoc. apply Hin.
Qed.

(** C3. On a request that serializes, carries its task configuration and
    types [errors] as a sequence, the handler raises the configuration
    error exactly when [tile] or [date] is absent or empty, and then
    queries nothing: the trace gains two log records only.  When both are
    present and non-empty, validation passes and the query step is
    reached: its first log record and the opening of the catalog client are
    in the trace. *)
Theorem validation (st : State Ext) (text : string) (tc : dict) :
  Json.dumps (VDict (event st)) = Some text ->
  task_config_of (event st) = Some tc ->
  sequence_or_absent "errors" (event st) ->
  (fst (lambda_handler st) = Raise config_error
   <-> absent_or_empty "tile" tc \/ absent_or_empty "date" tc)
  /\ (absent_or_empty "tile" tc \/ absent_or_empty "date" tc ->
      trace (snd (lambda_handler st))
      = (trace st
           ++ [Log INFO (ProcessingEvent text);
               Log ERROR (ErrorProcessingPayload (exn_str config_error))])%list)
  /\ (~ (absent_or_empty "tile" tc \/ absent_or_empty "date" tc) ->
      traced (Log INFO (Querying (field "tile" tc) (field "date" tc)
                                 (match Py.get (KStr "max_items") tc with
                                  | Some v => v
                                  | None => VInt 100
                                  end)))
             (snd (lambda_handler st))
      /\ traced (ClientOpen STAC_API_URL API_MODIFIER) (snd (lambda_handler st))).
Proof.
  intros Htext Htc Herrors.
  pose proof (read_config_run st text tc Htext Htc) as Hcfg.
  rewrite !absent_or_empty_truthy.
  destruct (Py.truthy (field "tile" tc)) eqn:Htile;
    [destruct (Py.truthy (field "date" tc)) eqn:Hdate |];
    cbn [negb orb] in Hcfg.
  1: { (* both present and non-empty *)
    set (cfg := (field "tile" tc, field "date" tc,
                 match Py.get (KStr "download_assets") tc with
                 | Some v => v | None => VBool false end,
                 match Py.get (KStr "max_items") tc with
                 | Some v => v | None => VInt 100 end)) in *.
    assert (Hrun : lambda_handler st
                   = try_except (run_pipeline cfg) on_exception
                                (emit (Log INFO (ProcessingEvent text)) st)).
    { unfold lambda_handler. apply try_from. unfold handler_body.
      now rewrite (bind_ok _ _ _ _ _ Hcfg). }
    rewrite Hrun.
    assert (Hforeign :
              triple (fun _ : State Ext => True)
                     (try_except (run_pipeline cfg) on_exception)
                     (fun _ _ => True) (fun e _ => foreign e)).
    { eapply (triple_try _ _ _ _ (fun e _ => foreign e)).
      - eapply triple_weaken.
        + apply (pipeline_keeps (fun _ => True)); now split.
        + auto.
        + auto.
        + now intros e s [_ He].
      - intros e. eapply triple_weaken.
        + apply (on_exception_keeps (fun _ => foreign e)); now split.
        + auto.
        + contradiction.
        + intros e' s [He [-> | [m ->]]]; [assumption | foreign_solve]. }
    assert (Hreach : forall x,
               x = Log INFO (Querying (field "tile" tc) (field "date" tc)
                                      (match Py.get (KStr "max_items") tc with
                                       | Some v => v | None => VInt 100 end))
               \/ x = ClientOpen STAC_API_URL API_MODIFIER ->
               triple (fun _ : State Ext => True)
                      (try_except (run_pipeline cfg) on_exception)
                      (fun _ s => traced x s) (fun _ s => traced x s)).
    { intros x Hx.
      eapply (triple_try _ _ _ _ (fun _ s => traced x s)).
      - unfold run_pipeline, cfg.
        eapply triple_bind; [apply (log_keeps (fun _ => True)); now split
                            | intros ?].
        eapply (triple_bind _ _ _ (fun _ s => traced x s)).
        + eapply triple_weaken;
            [apply (query_reaches _ _ _ _ x Hx) | auto | auto
             | now intros e s [Hs _]].
        + intros items. cbv beta.
          eapply triple_weaken.
          * apply (process_and_respond_keeps (traced x));
              [apply traced_effects | apply traced_closed].
          * auto.
          * auto.
          * now intros e s [Hs _].
      - intros e. eapply triple_weaken.
        + apply (on_exception_keeps (traced x));
            [apply traced_effects | apply traced_closed].
        + auto.
        + contradiction.
        + now intros e' s [Hs _]. }
    pose proof (triple_run _ _ _ _ (emit (Log INFO (ProcessingEvent text)) st)
                  Hforeign I) as Hf.
    split; [split | split].
    - intros Hraise. rewrite Hraise in Hf. now elim Hf.
    - intros [H | H]; discriminate H.
    - intros [H | H]; discriminate H.
    - intros _. split.
      + pose proof (triple_run _ _ _ _
                      (emit (Log INFO (ProcessingEvent text)) st)
                      (Hreach _ (or_introl eq_refl)) I) as H.
        now destruct (fst (try_except (run_pipeline cfg) on_exception _)).
      + pose proof (triple_run _ _ _ _
                      (emit (Log INFO (ProcessingEvent text)) st)
                      (Hreach _ (or_intror eq_refl)) I) as H.
        now destruct (fst (try_except (run_pipeline cfg) on_exception _)). }
  all: (* a field is absent or empty *)
    assert (Hrun : lambda_handler st
                   = on_exception config_error
                                  (emit (Log INFO (ProcessingEvent text)) st))
      by (unfold lambda_handler, try_except, handler_body;
          now rewrite (bind_raise _ _ _ _ _ Hcfg));
    rewrite Hrun, on_exception_run
      by (destruct st; exact Herrors);
    cbn [fst snd trace]; destruct st as [ev h w t]; cbn [emit trace];
    (split; [split; auto | split]);
    [ intros _; now rewrite <- app_assoc | intros Hn; exfalso; auto ].
Qed.

End Validation.

(** ** The size check and the response *)

Section Offload.
Context {Ext : Type} {D : Deployment Ext}.

Lemma should_upload_run (payload : dict) (st : State Ext) :
  should_upload_to_s3 payload st
  = match Json.dumps (VDict payload) with
    | Some text =>
        (Ok (Json.utf8_len text >? threshold)%Z,
         emit (Log INFO (PayloadSize (Json.utf8_len text) threshold
                                     (Json.utf8_len text >? threshold)%Z)) st)
    | None =>
        (Ok true,
         emit (Log WARNING
                   (CouldNotDetermineSize
                      "keys must be str, int, float, bool or None, not tuple"))
              st)
    end.
Proof.
  unfold should_upload_to_s3, json_dumps. run_monad.
  now destruct (Json.dumps (VDict payload)).
Qed.

(** C9. When the payload cannot be serialized, the size check returns
    true and raises nothing; all it does is log one warning. *)
Theorem size_check_failure (payload : dict) (st : State Ext) :
  Json.dumps (VDict payload) = None ->
  should_upload_to_s3 payload st
  = (Ok true,
     emit (Log WARNING
               (CouldNotDetermineSize
                  "keys must be str, int, float, bool or None, not tuple"))
          st).
Proof. intros Hfail. now rewrite should_upload_run, Hfail. Qed.





End Offload.

(** ** Asset download *)

Section Download.
Context {Ext : Type} {D : Deployment Ext}.

(** The loop body in closed form: it returns, and the item it returns is
    the original one unless the asset is a GeoTIFF whose fetch and store
    both succeed. *)
Lemma process_asset_run (item : Item) (k : string) (a : Asset)
      (st : State Ext) :
  exists st',
    process_asset item k a st
    = (Ok (if is_geotiff a
              && fetch_and_store_succeed (id item) k a (world st)
           then match assign_href k (s3_href_of (id item) k) (assets item) with
                | Some d => set_assets item d
                | None => item
                end
           else item),
       st').
Proof.
  destruct st as [ev h w t]. unfold process_asset, fetch_and_store_succeed.
  destruct (is_geotiff a); [| eexists; reflexivity].
  run_monad. cbn [andb].
  destruct (requests_get (href a) w) as [[m | content] w1];
    cbn [event heap world trace fst snd]; [eexists; reflexivity |].
  match goal with
  | |- context [put_object ?b ?key ?body ?ct w1] =>
      destruct (put_object b key body ct w1) as [[m | []] w2]
  end; cbn [event heap world trace fst snd]; [eexists; reflexivity |].
  destruct (assign_href k (s3_href_of (id item) k) (assets item));
    cbn [event heap world trace fst snd]; eexists; reflexivity.
Qed.

(** An asset that is no GeoTIFF: the body does nothing at all. *)
Lemma process_asset_skip (item : Item) (k : string) (a : Asset)
      (st : State Ext) :
  is_geotiff a = false -> process_asset item k a st = (Ok item, st).
Proof. intros H. unfold process_asset. now rewrite H. Qed.

Lemma assign_href_at (k new : string) (d : list (string * Asset)) :
  match assign_href k new d with
  | Some d' =>
      forall k',
        asset_at k' d'
        = if String.eqb k' k
          then option_map (fun x => set_href x new) (asset_at k d)
          else asset_at k' d
  | None => asset_at k d = None
  end.
Proof.
  induction d as [| [k0 a0] rest IH]; cbn [assign_href asset_at].
  - reflexivity.
  - destruct (String.eqb k0 k) eqn:E.
    + apply String.eqb_eq in E. subst k0. intros k'. cbn [asset_at].
      rewrite (String.eqb_sym k' k).
      destruct (String.eqb k k'); reflexivity.
    + destruct (assign_href k new rest) as [rest' |]; [| exact IH].
      intros k'. cbn [asset_at]. specialize (IH k').
      destruct (String.eqb k0 k') eqn:E0; [| exact IH].
      apply String.eqb_eq in E0. subst k0.
      now rewrite E.
Qed.

(** What one turn of the loop does to the asset under any key. *)
Lemma process_asset_at (item : Item) (k : string) (a : Asset)
      (st : State Ext) (k' : string) :
  exists item' st',
    process_asset item k a st = (Ok item', st')
    /\ id item' = id item
    /\ asset_at k' (assets item')
       = if String.eqb k' k && is_geotiff a
            && fetch_and_store_succeed (id item) k a (world st)
         then option_map (fun x => set_href x (s3_href_of (id item) k))
                         (asset_at k (assets item))
         else asset_at k' (assets item).
Proof.
  destruct (process_asset_run item k a st) as [st' Hrun].
  eexists. exists st'. split; [exact Hrun |].
  destruct (is_geotiff a && fetch_and_store_succeed (id item) k a (world st))
    eqn:Hdone.
  - pose proof (assign_href_at k (s3_href_of (id item) k) (assets item)) as Hat.
    rewrite <- andb_assoc, Hdone, andb_true_r.
    destruct (assign_href k (s3_href_of (id item) k) (assets item)) as [d |].
    + split; [reflexivity |]. cbn [assets set_assets]. apply Hat.
    + split; [reflexivity |]. destruct (String.eqb k' k) eqn:E; [| reflexivity].
      apply String.eqb_eq in E. subst k'. now rewrite Hat.
  - split; [reflexivity |]. now rewrite <- andb_assoc, Hdone, andb_false_r.
Qed.


(** Turns for other keys leave the asset under [k] alone. *)
Lemma process_assets_other (k : string) (signed : list (string * Asset)) :
  forall item (st : State Ext) item' st',
    (forall a, In (k, a) signed -> is_geotiff a = false) ->
    process_assets item signed st = (Ok item', st') ->
    id item' = id item
    /\ asset_at k (assets item') = asset_at k (assets item).
Proof.
  induction signed as [| [k0 a0] rest IH]; intros item st item' st' Hk Hrun;
    cbn [process_assets] in Hrun.
  - injection Hrun as <- <-. now split.
  - destruct (process_asset_at item k0 a0 st k)
      as (item1 & st1 & Hstep & Hid & Hat).
    rewrite (bind_ok _ _ _ _ _ Hstep) in Hrun.
    destruct (IH item1 st1 item' st'
                 (fun a Ha => Hk a (or_intror Ha)) Hrun) as [Hid' Hat'].
    split; [congruence |]. rewrite Hat', Hat.
    destruct (String.eqb k k0) eqn:E; [| reflexivity].
    apply String.eqb_eq in E. subst k0.
    now rewrite (Hk a0 (or_introl eq_refl)).
Qed.



(** A GeoTIFF is not told apart by anything but the media type. *)
Lemma is_geotiff_media (a b : Asset) :
  media_type a = media_type b -> is_geotiff a = is_geotiff b.
Proof. unfold is_geotiff. now intros ->. Qed.

Lemma asset_at_In (k : string) (a : Asset) (d : list (string * Asset)) :
  asset_at k d = Some a -> In (k, a) d.
Proof.
  induction d as [| [k0 a0] rest IH]; cbn [asset_at]; [discriminate |].
  destruct (String.eqb k0 k) eqn:E.
  - apply String.eqb_eq in E. subst k0. intros H. injection H as ->. now left.
  - intros H. right. now apply IH.
Qed.

Lemma In_asset_at (k : string) (a : Asset) (d : list (string * Asset)) :
  NoDup (map fst d) -> In (k, a) d -> asset_at k d = Some a.
Proof.
  induction d as [| [k0 a0] rest IH]; cbn [asset_at map fst]; [contradiction |].
  intros Hnd [Heq | Hin].
  - injection Heq as -> ->. now rewrite String.eqb_refl.
  - inversion Hnd as [| ? ? Hnotin Hnd']; subst.
    destruct (String.eqb k0 k) eqn:E; [| now apply IH].
    apply String.eqb_eq in E. subst k0. exfalso. apply Hnotin.
    apply in_map_iff. now exists (k, a).
Qed.

(** The transform is the loop over the assets of the signed item, once
    signing has succeeded. *)
Lemma download_run (item : Item) (st : State Ext) :
  download_and_update_item item st
  = match sign item (world st) with
    | (inl m, w') =>
        (Raise (External m),
         mkState (event st) (heap st) w'
                 (trace st ++ [Log INFO (DownloadingAssets (id item));
                               Sign (id item)]))
    | (inr signed, w') =>
        process_assets item (assets signed)
          (mkState (event st) (heap st) w'
                   (trace st ++ [Log INFO (DownloadingAssets (id item));
                                 Sign (id item)]))
    end.
Proof.
  unfold download_and_update_item. run_monad.
  destruct (sign item (world st)) as [[m | signed] w'];
    cbn [event heap world trace fst snd]; now rewrite <- app_assoc.
Qed.

Lemma fetched_app (t1 t2 : list effect) :
  fetched (t1 ++ t2) = (fetched t1 ++ fetched t2)%list.
Proof. apply flat_map_app. Qed.

Lemma process_asset_fetched (item : Item) (k : string) (a : Asset)
      (st : State Ext) :
  fetched (trace (snd (process_asset item k a st)))
  = (fetched (trace st) ++ if is_geotiff a then [href a] else [])%list.
Proof.
  destruct st as [ev h w t]. unfold process_asset.
  destruct (is_geotiff a); [| cbn; now rewrite app_nil_r].
  run_monad.
  destruct (requests_get (href a) w) as [[m | content] w1];
    cbn [event heap world trace fst snd].
  - rewrite !fetched_app. cbn. now rewrite ?app_nil_r.
  - match goal with
    | |- context [put_object ?b ?key ?body ?ct w1] =>
        destruct (put_object b key body ct w1) as [[m | []] w2]
    end; cbn [event heap world trace fst snd].
    + rewrite !fetched_app. cbn. now rewrite ?app_nil_r.
    + destruct (assign_href k (s3_href_of (id item) k) (assets item));
        cbn [event heap world trace fst snd];
        rewrite !fetched_app; cbn; now rewrite ?app_nil_r.
Qed.

(** The URLs the loop fetches are those of the signed GeoTIFF assets, in
    order, and no other. *)
Lemma process_assets_fetched (signed : list (string * Asset)) :
  forall item (st : State Ext),
    fetched (trace (snd (process_assets item signed st)))
    = (fetched (trace st)
         ++ map (fun ka => href (snd ka))
                (filter (fun ka => is_geotiff (snd ka)) signed))%list.
Proof.
  induction signed as [| [k a] rest IH]; intros item st;
    cbn [process_assets filter map snd].
  - cbn. now rewrite app_nil_r.
  - pose proof (process_asset_fetched item k a st) as Hstep.
    destruct (process_asset_run item k a st) as [st1 Hrun].
    rewrite Hrun in Hstep. cbn [snd] in Hstep.
    rewrite (bind_ok _ _ _ _ _ Hrun), IH, Hstep.
    destruct (is_geotiff a); cbn [map snd]; now rewrite <- app_assoc.
Qed.

(** C5. In asset-download mode, take an asset of the item whose media type
    is absent or does not contain "geotiff", the item's asset keys being
    distinct and signing keeping keys and media types.  Whenever the
    transform returns, the asset under that key is the one that was there,
    so its href is the same text.  And once the item is signed, the asset's
    turn in the loop does nothing (no fetch, no store, no update, no log),
    and the URLs fetched during the transform are those of the signed
    GeoTIFF assets and no other. *)
Theorem non_geotiff_untouched (item : Item) (st : State Ext) (k : string)
        (a : Asset) :
  sign_keeps_media_types ->
  NoDup (map fst (assets item)) ->
  asset_at k (assets item) = Some a ->
  is_geotiff a = false ->
  (forall item' st',
      download_and_update_item item st = (Ok item', st') ->
      asset_at k (assets item') = Some a)
  /\ (forall signed w',
        sign item (world st) = (inr signed, w') ->
        (forall a' item1 st1,
            In (k, a') (assets signed) ->
            process_asset item1 k a' st1 = (Ok item1, st1))
        /\ fetched (trace (snd (download_and_update_item item st)))
           = (fetched (trace st)
                ++ map (fun ka => href (snd ka))
                       (filter (fun ka => is_geotiff (snd ka))
                               (assets signed)))%list).
Proof.
  intros Hsign Hnodup Hat Hplain.
  assert (Hsigned : forall signed w' a',
             sign item (world st) = (inr signed, w') ->
             In (k, a') (assets signed) -> is_geotiff a' = false).
  { intros signed w' a' Hs Hin.
    pose proof (Hsign item (world st) signed w' Hs) as Hmap.
    assert (Hin' : In (k, media_type a')
                      (map (fun ka => (fst ka, media_type (snd ka)))
                           (assets item))).
    { rewrite <- Hmap. apply in_map_iff. now exists (k, a'). }
    apply in_map_iff in Hin'. destruct Hin' as [[k0 a0] [Heq Hin0]].
    cbn [fst snd] in Heq. injection Heq as -> Hmedia.
    rewrite (In_asset_at k a0 (assets item) Hnodup Hin0) in Hat.
    injection Hat as ->.
    now rewrite (is_geotiff_media a' a). }
  split.
  - intros item' st' Hrun. rewrite download_run in Hrun.
    destruct (sign item (world st)) as [[m | signed] w'] eqn:Hs;
      [discriminate |].
    destruct (process_assets_other k (assets signed) item _ item' st'
                (fun a' Hin => Hsigned signed w' a' eq_refl Hin) Hrun)
      as [_ Hsame].
    now rewrite Hsame.
  - intros signed w' Hs. split.
    + intros a' item1 st1 Hin. apply process_asset_skip.
      now apply (Hsigned signed w').
    + rewrite download_run, Hs, process_assets_fetched.
      cbn [trace]. rewrite fetched_app. cbn. now rewrite app_nil_r.
Qed.


End Download.

(** * Runs in the scripted world *)

Module Runs.
Import Scripted.

(** The scripted signing keeps keys and media types. *)
Lemma scripted_sign_keeps_media_types (data_bucket payload_bucket : option string) :
  sign_keeps_media_types (D := deployment data_bucket payload_bucket).
Proof.
  intros item w signed w' Hs. cbn in Hs. unfold sign_urls in Hs.
  injection Hs as <- _. cbn [assets set_assets].
  rewrite map_map. apply map_ext. now intros [k a].
Qed.

(** Metadata only: the feature of the item keeps its "self" link as
    "canonical" and its "collection" link, and loses both "child" links. *)
Example metadata_run :
  Py.get (KStr "features")
         (event (snd (lambda_handler (D := full) (start metadata_request quiet))))
  = Some (VList [item_dict
                   (fun a => match a with
                             | 0 => mkLink "canonical" "https://pc/items/a" VNone
                             | _ => three_links a
                             end)
                   (set_links item_a [0; 2])]).
Proof. vm_compute. reflexivity. Qed.

(** Downloads with band 4 unreachable: band 4 keeps its href, band 8 is
    re-hosted, the other assets are as they were, and the item is among the
    features. *)
Example download_run_with_failure :
  Py.get (KStr "features")
         (event (snd (lambda_handler (D := full) (start download_request b04_down))))
  = Some (VList [item_dict three_links
                   (set_assets item_a
                      [("B04", mkAsset "https://pc/a/B04.tif" tif VNone);
                       ("thumbnail", thumbnail);
                       ("B08", mkAsset "s3://data-bucket/sentinel-2-l2a/S2A_33UUP/B08.tif"
                                       tif VNone);
                       ("metadata", mkAsset "https://pc/a/meta.xml" None VNone)])]).
Proof. vm_compute. reflexivity. Qed.

(** Features already in the payload stay in front. *)
Example earlier_features_kept :
  sequence_at "features"
    (event (snd (lambda_handler (D := full) (start request_with_feature quiet))))
  = VStr "earlier"
      :: sequence_at "features"
           (event (snd (lambda_handler (D := full) (start metadata_request quiet)))).
Proof. vm_compute. reflexivity. Qed.

(** A small payload comes back whole, a padded one as a pointer. *)
Example small_payload_inline :
  fst (lambda_handler (D := full) (start metadata_request quiet))
  = Ok (VDict (event (snd (lambda_handler (D := full)
                             (start metadata_request quiet))))).
Proof. vm_compute. reflexivity. Qed.

Example padded_payload_offloaded :
  fst (lambda_handler (D := full) (start padded_request quiet))
  = Ok (VDict [(KStr "url",
                VStr "s3://payload-bucket/planetary-computer-to-s3/p1.json")]).
Proof. vm_compute. reflexivity. Qed.


(** [validation] at two requests: an empty tile raises the configuration
    error, a complete request reaches the catalog client. *)
Lemma validation_witness :
  fst (lambda_handler (D := full) (start empty_tile_request quiet))
  = Raise config_error
  /\ traced (ClientOpen "https://planetarycomputer.microsoft.com/api/stac/v1"
                        sign_inplace)
            (snd (lambda_handler (D := full) (start metadata_request quiet))).
Proof.
  split.
  - apply (proj1 (validation (D := full) (start empty_tile_request quiet)
                    (text_of empty_tile_request)
                    [(KStr "tile", VStr ""); (KStr "date", VStr "2024-06-01");
                     (KStr "download_assets", VBool false);
                     (KStr "max_items", VInt 5)]
                    eq_refl eq_refl (or_introl eq_refl))).
    left. right. exists (VStr ""). split; reflexivity.
  - apply (proj2 (proj2 (validation (D := full) (start metadata_request quiet)
                           (text_of metadata_request)
                           [(KStr "tile", VStr "33UUP");
                            (KStr "date", VStr "2024-06-01");
                            (KStr "download_assets", VBool false);
                            (KStr "max_items", VInt 5)]
                           eq_refl eq_refl (or_introl eq_refl)))).
    intros [H | H]; apply absent_or_empty_truthy in H; discriminate H.
Defined.

(** [non_geotiff_untouched] at the thumbnail of the scripted item, while
    band 4 cannot be fetched. *)
Lemma non_geotiff_untouched_witness :
  exists item' st',
    download_and_update_item (D := full) item_a (start download_request b04_down)
    = (Ok item', st')
    /\ asset_at "thumbnail" (assets item') = Some thumbnail.
Proof.
  eexists. eexists. split.
  - vm_compute. reflexivity.
  - apply (proj1 (non_geotiff_untouched (D := full) item_a
                    (start download_request b04_down) "thumbnail" thumbnail
                    (scripted_sign_keeps_media_types _ _)
                    ltac:(repeat constructor; simpl; intuition discriminate)
                    eq_refl eq_refl)
             _ (snd (download_and_update_item (D := full) item_a
                       (start download_request b04_down)))).
    vm_compute. reflexivity.
Defined.

(** [fatal_path] at the request with an empty tile: the configuration
    error is raised again, after one record is appended to the new
    [errors]. *)
Lemma fatal_path_witness :
  lambda_handler (D := full) (start empty_tile_request quiet)
  = (Raise config_error,
     mkState (Py.set (KStr "errors")
                     (VList
                        [VDict
                           [(KStr "task", VStr "planetary-computer-to-s3");
                            (KStr "error",
                             VStr "Both 'tile' and 'date' are required in task configuration");
                            (KStr "timestamp", VStr "2024-06-01T12:00:00")]])
                     empty_tile_request)
             (fun _ => mkLink "root" "" VNone) quiet
             [Log INFO (ProcessingEvent (text_of empty_tile_request));
              Log ERROR (ErrorProcessingPayload (exn_str config_error))]).
Proof.
  exact (proj2 (fatal_path (D := full) (start empty_tile_request quiet)
                  config_error
                  (mkState empty_tile_request (fun _ => mkLink "root" "" VNone)
                           quiet
                           [Log INFO (ProcessingEvent
                                        (text_of empty_tile_request))])
                  eq_refl)
               (or_introl eq_refl)).
Defined.

(** [size_check_failure] at the payload with a tuple key. *)
Lemma size_check_failure_witness :
  should_upload_to_s3 tuple_keyed (start tuple_keyed quiet)
  = (Ok true,
     emit (Log WARNING
               (CouldNotDetermineSize
                  "keys must be str, int, float, bool or None, not tuple"))
          (start tuple_keyed quiet)).
Proof.
  exact (size_check_failure tuple_keyed (start tuple_keyed quiet)
                            eq_refl).
Defined.



End Runs.

(** * Further properties *)

(** ** The metadata-only transform, applied again *)

Section Idempotence.
Context {Ext : Type}.
Import IndexingFacts.

Lemma filter_all {A} (f : A -> bool) (l : list A) :
  (forall x, In x l -> f x = true) -> filter f l = l.
Proof.
  induction l as [| x rest IH]; intros Hall; cbn [filter]; [reflexivity |].
  rewrite (Hall x (or_introl eq_refl)), IH; [reflexivity |].
  intros y Hy. apply Hall. now right.
Qed.

(** After the transform, no link of the item is labelled "self" and every
    link of the item is retained. *)
Lemma prepared_links (item : Item) (h : store) (a : loc) :
  In a (filter (Indexing.retained h) (links item)) ->
  String.eqb (rel (fst (Indexing.mark_links (links item) h []) a)) "self"
  = false
  /\ Indexing.retained (fst (Indexing.mark_links (links item) h [])) a = true.
Proof.
  intros Ha. apply filter_In in Ha. destruct Ha as [Hin Hret].
  unfold Indexing.retained. rewrite mark_links_store.
  apply mem_loc_In in Hin. rewrite Hin. cbn [andb].
  destruct (String.eqb (rel (h a)) "self") eqn:Hself.
  - split; reflexivity.
  - unfold Indexing.retained in Hret. rewrite Hself in Hret.
    cbn [orb] in Hret. rewrite Hself. split; [reflexivity | exact Hret].
Qed.

(** X1. The metadata-only transform is idempotent: applied to the item it
    has returned, it returns the same item again, and no link object, no
    part of the payload, of the outside world or of the trace changes. *)
Theorem prepare_item_for_indexing_idempotent (item : Item) (st : State Ext) :
  exists item1 st1,
    prepare_item_for_indexing item st = (Ok item1, st1)
    /\ exists st2,
        prepare_item_for_indexing item1 st1 = (Ok item1, st2)
        /\ (forall a, heap st2 a = heap st1 a)
        /\ event st2 = event st1 /\ world st2 = world st1
        /\ trace st2 = trace st1.
Proof.
  eexists. eexists. split; [apply prepare_run |].
  eexists. rewrite prepare_run.
  cbn [links set_links heap event world trace].
  set (h1 := fst (Indexing.mark_links (links item) (heap st) [])).
  set (ls := filter (Indexing.retained (heap st)) (links item)).
  assert (Hls : filter (Indexing.retained h1) ls = ls).
  { apply filter_all. intros a Ha. now apply (prepared_links item (heap st) a). }
  rewrite Hls. split; [reflexivity |].
  cbn [heap event world trace]. split; [| repeat split].
  intros a. rewrite mark_links_store. fold h1. fold ls.
  destruct (existsb (Nat.eqb a) ls) eqn:Hin; [| reflexivity].
  apply mem_loc_In in Hin.
  destruct (prepared_links item (heap st) a Hin) as [Hself _].
  fold h1 in Hself. now rewrite Hself.
Qed.

End Idempotence.

(** ** Traces that only grow by allowed effects *)

Section Appended.
Context {Ext : Type}.
Variable P : effect -> Prop.

Lemma appended_start (s : State Ext) : appended P (trace s) s.
Proof. exists []. split; [now rewrite app_nil_r | constructor]. Qed.

Lemma appended_emit (t0 : list effect) ev h w t e :
  P e ->
  appended (Ext := Ext) P t0 (mkState ev h w t) ->
  appended (Ext := Ext) P t0 (mkState ev h w (t ++ [e])).
Proof.
  intros He [new [Ht Hnew]]. cbn [trace] in Ht. subst t.
  exists (new ++ [e])%list. cbn [trace]. split; [now rewrite app_assoc |].
  apply Forall_app. split; [assumption | now constructor].
Qed.

Lemma appended_state (t0 : list effect) ev h w t ev' h' w' :
  appended (Ext := Ext) P t0 (mkState ev h w t) ->
  appended (Ext := Ext) P t0 (mkState ev' h' w' t).
Proof. intros [new [Ht Hnew]]. now exists new. Qed.

Lemma appended_trans (t0 : list effect) (s1 s2 : State Ext) :
  appended P t0 s1 -> appended P (trace s1) s2 -> appended P t0 s2.
Proof.
  intros [n1 [H1 F1]] [n2 [H2 F2]]. exists (n1 ++ n2)%list.
  split; [now rewrite H2, H1, app_assoc | now apply Forall_app].
Qed.
End Appended.

Lemma appended_weaken {Ext : Type} (P Q : effect -> Prop) (t0 : list effect)
      (s : State Ext) :
  (forall e, P e -> Q e) -> appended P t0 s -> appended Q t0 s.
Proof.
  intros HPQ [new [Ht Hnew]]. exists new. split; [assumption |].
  eapply Forall_impl; [exact HPQ | exact Hnew].
Qed.

(** Peel the entries a run has added to the trace, each one allowed. *)
Ltac appended_close :=
  repeat (eapply appended_emit; [first [exact I | assumption | auto] |]);
  first [eassumption | (eapply appended_state; eassumption)].

(** ** Asset download: what changes and what is written *)

Section DownloadFrame.
Context {Ext : Type} {D : Deployment Ext}.

Lemma rehosted_refl (item_id : string) (d : list (string * Asset)) :
  Forall2 (rehosted item_id) d d.
Proof.
  induction d as [| ka rest IH]; constructor; [| exact IH].
  unfold rehosted. repeat split. now left.
Qed.

Lemma rehosted_trans (item_id : string) (x y z : string * Asset) :
  rehosted item_id x y -> rehosted item_id y z -> rehosted item_id x z.
Proof.
  unfold rehosted. intros (Hk & Hm & He & Hh) (Hk' & Hm' & He' & Hh').
  repeat split; try congruence.
  destruct Hh' as [Hh' | Hh']; [| right; congruence].
  destruct Hh as [Hh | Hh]; [left | right]; congruence.
Qed.

Lemma Forall2_rehosted_trans (item_id : string) :
  forall d1 d2 d3,
    Forall2 (rehosted item_id) d1 d2 -> Forall2 (rehosted item_id) d2 d3 ->
    Forall2 (rehosted item_id) d1 d3.
Proof.
  intros d1 d2 d3 H12. revert d3.
  induction H12 as [| x y l1 l2 Hxy H12 IH]; intros d3 H23;
    inversion H23; subst; constructor.
  - eapply rehosted_trans; eassumption.
  - now apply IH.
Qed.

Lemma assign_href_rehosted (item_id k : string) (d : list (string * Asset)) :
  match assign_href k (s3_href_of item_id k) d with
  | Some d' => Forall2 (rehosted item_id) d d'
  | None => True
  end.
Proof.
  induction d as [| [k0 a0] rest IH]; cbn [assign_href]; [exact I |].
  destruct (String.eqb k0 k) eqn:E.
  - apply String.eqb_eq in E. subst k0. constructor; [| apply rehosted_refl].
    unfold rehosted. cbn. repeat split. now right.
  - destruct (assign_href k (s3_href_of item_id k) rest); [| exact I].
    constructor; [| exact IH]. unfold rehosted. repeat split. now left.
Qed.

(** One turn of the loop: the item keeps its id, links and other fields,
    its assets change by hrefs only, and neither the payload nor the link
    store moves. *)
Lemma process_asset_frame (item : Item) (k : string) (a : Asset)
      (st : State Ext) :
  exists item' st',
    process_asset item k a st = (Ok item', st')
    /\ id item' = id item /\ links item' = links item
    /\ item_extra item' = item_extra item
    /\ Forall2 (rehosted (id item)) (assets item) (assets item')
    /\ heap st' = heap st /\ event st' = event st.
Proof.
  destruct st as [ev h w t]. unfold process_asset.
  destruct (is_geotiff a);
    [| eexists; eexists; split; [reflexivity |];
       repeat split; apply rehosted_refl].
  run_monad.
  destruct (requests_get (href a) w) as [[m | content] w1];
    cbn [event heap world trace fst snd].
  - eexists; eexists; split; [reflexivity |]. repeat split.
    apply rehosted_refl.
  - match goal with
    | |- context [put_object ?b ?key ?body ?ct w1] =>
        destruct (put_object b key body ct w1) as [[m | []] w2]
    end; cbn [event heap world trace fst snd].
    + eexists; eexists; split; [reflexivity |]. repeat split.
      apply rehosted_refl.
    + pose proof (assign_href_rehosted (id item) k (assets item)) as Hre.
      destruct (assign_href k (s3_href_of (id item) k) (assets item));
        cbn [event heap world trace fst snd];
        eexists; eexists; (split; [reflexivity |]); repeat split;
        [exact Hre | apply rehosted_refl].
Qed.

Lemma process_assets_frame (signed : list (string * Asset)) :
  forall item (st : State Ext),
  exists item' st',
    process_assets item signed st = (Ok item', st')
    /\ id item' = id item /\ links item' = links item
    /\ item_extra item' = item_extra item
    /\ Forall2 (rehosted (id item)) (assets item) (assets item')
    /\ heap st' = heap st /\ event st' = event st.
Proof.
  induction signed as [| [k a] rest IH]; intros item st; cbn [process_assets].
  - exists item, st. split; [reflexivity |]. repeat split.
    apply rehosted_refl.
  - destruct (process_asset_frame item k a st)
      as (item1 & st1 & Hstep & Hid & Hl & Hx & Ha & Hh & He).
    destruct (IH item1 st1)
      as (item' & st' & Hrun & Hid' & Hl' & Hx' & Ha' & Hh' & He').
    exists item', st'. rewrite (bind_ok _ _ _ _ _ Hstep).
    split; [exact Hrun |]. rewrite Hid in Ha'.
    repeat split; try congruence.
    eapply Forall2_rehosted_trans; eassumption.
Qed.

(** X2. Asset-download mode rewrites hrefs and nothing else: whenever the
    transform returns, the item has the same id, links and other fields;
    its assets are the same in number, order, keys, media types and other
    fields, and each href is either the original one or the S3 location
    of its key; the link objects and the payload are untouched. *)
Theorem download_rewrites_hrefs_only (item : Item) (st : State Ext)
        (item' : Item) (st' : State Ext) :
  download_and_update_item item st = (Ok item', st') ->
  id item' = id item /\ links item' = links item
  /\ item_extra item' = item_extra item
  /\ Forall2 (rehosted (id item)) (assets item) (assets item')
  /\ heap st' = heap st /\ event st' = event st.
Proof.
  intros Hrun. rewrite download_run in Hrun.
  destruct (sign item (world st)) as [[m | signed] w']; [discriminate |].
  destruct (process_assets_frame (assets signed) item
              (mkState (event st) (heap st) w'
                       (trace st ++ [Log INFO (DownloadingAssets (id item));
                                     Sign (id item)])))
    as (item2 & st2 & Hrun2 & H).
  rewrite Hrun2 in Hrun. injection Hrun as <- <-. exact H.
Qed.

(** With the network down, a turn of the loop returns the item as it
    is, and stores nothing. *)
Lemma process_asset_offline (item : Item) (k : string) (a : Asset)
      (st : State Ext) (t0 : list effect) :
  network_down ->
  appended (fun e => match e with PutObject _ _ _ _ => False | _ => True end)
           t0 st ->
  exists st',
    process_asset item k a st = (Ok item, st')
    /\ appended (fun e => match e with
                          | PutObject _ _ _ _ => False
                          | _ => True
                          end) t0 st'.
Proof.
  intros Hdown Hs. destruct st as [ev h w t]. unfold process_asset.
  destruct (is_geotiff a); [| now exists (mkState ev h w t)].
  run_monad. destruct (Hdown (href a) w) as (m & w1 & Hget). rewrite Hget.
  cbn [event heap world trace fst snd].
  eexists. split; [reflexivity |]. appended_close.
Qed.

(** X3. With the network down (every fetch fails), asset-download mode
    still returns whenever signing succeeds, the item it returns is the
    item it was given, unchanged, and nothing is written to the object
    store. *)
Theorem outage_leaves_item (item : Item) (st : State Ext) :
  network_down ->
  forall signed w',
    sign item (world st) = (inr signed, w') ->
    exists st',
      download_and_update_item item st = (Ok item, st')
      /\ appended (fun e => match e with
                            | PutObject _ _ _ _ => False
                            | _ => True
                            end) (trace st) st'.
Proof.
  intros Hdown signed w' Hs. rewrite download_run, Hs.
  assert (Hloop : forall l (s : State Ext),
             appended (fun e => match e with
                                | PutObject _ _ _ _ => False
                                | _ => True
                                end) (trace st) s ->
             exists st',
               process_assets item l s = (Ok item, st')
               /\ appended (fun e => match e with
                                     | PutObject _ _ _ _ => False
                                     | _ => True
                                     end) (trace st) st').
  { induction l as [| [k a] rest IH]; intros s Hs'; cbn [process_assets].
    - now exists s.
    - destruct (process_asset_offline item k a s (trace st) Hdown Hs')
        as (s1 & Hstep & Hs1).
      rewrite (bind_ok _ _ _ _ _ Hstep). now apply IH. }
  apply Hloop.
  exists [Log INFO (DownloadingAssets (id item)); Sign (id item)].
  split; [reflexivity | repeat constructor].
Qed.

(** The effects of one turn of the loop are those of its asset. *)
Lemma process_asset_effects (item_id : string)
      (signed : list (string * Asset)) (item : Item) (k : string)
      (a : Asset) (st : State Ext) (t0 : list effect) :
  id item = item_id -> In (k, a) signed ->
  appended (asset_effect item_id signed) t0 st ->
  appended (asset_effect item_id signed) t0
           (snd (process_asset item k a st)).
Proof.
  intros Hid Hin Hs. destruct st as [ev h w t]. unfold process_asset.
  destruct (is_geotiff a) eqn:Hgeo; [| exact Hs].
  assert (Hget : asset_effect item_id signed (Get (href a))).
  { cbn. now exists k, a. }
  assert (Hput : forall content,
             asset_effect item_id signed
               (PutObject CIRRUS_DATA_BUCKET (s3_key_of (id item) k) content
                          (match media_type a with
                           | Some mt => mt
                           | None => ""
                           end))).
  { intros content. cbn. split; [reflexivity |]. exists k, a.
    rewrite Hid. repeat split; try assumption.
    unfold is_geotiff in Hgeo. now destruct (media_type a). }
  run_monad.
  destruct (requests_get (href a) w) as [[m | content] w1];
    cbn [event heap world trace fst snd].
  - appended_close.
  - specialize (Hput content).
    match goal with
    | |- context [put_object ?b ?key ?body ?ct w1] =>
        destruct (put_object b key body ct w1) as [[m | []] w2]
    end; cbn [event heap world trace fst snd].
    + appended_close.
    + destruct (assign_href k (s3_href_of (id item) k) (assets item));
        cbn [event heap world trace fst snd]; appended_close.
Qed.

(** X4. Once the item is signed, all that asset-download mode does to the
    outside is: sign the item, fetch signed GeoTIFF assets, and store
    objects in the data bucket, each under the key
    [sentinel-2-l2a/<item id>/<asset key>.tif] of a signed GeoTIFF asset
    and with that asset's media type as content type; the rest is log
    records.  It never queries the catalog. *)
Theorem download_effects (item : Item) (st : State Ext)
        (signed : Item) (w' : Ext) :
  sign item (world st) = (inr signed, w') ->
  appended (asset_effect (id item) (assets signed)) (trace st)
           (snd (download_and_update_item item st)).
Proof.
  intros Hs. rewrite download_run, Hs.
  assert (Hloop : forall l item0 (s : State Ext),
             incl l (assets signed) -> id item0 = id item ->
             appended (asset_effect (id item) (assets signed)) (trace st) s ->
             appended (asset_effect (id item) (assets signed)) (trace st)
                      (snd (process_assets item0 l s))).
  { induction l as [| [k a] rest IH]; intros item0 s Hincl Hid Hs';
      cbn [process_assets]; [exact Hs' |].
    pose proof (process_asset_effects (id item) (assets signed) item0 k a s
                  (trace st) Hid (Hincl _ (or_introl eq_refl)) Hs') as Hstep.
    destruct (process_asset_frame item0 k a s)
      as (item1 & s1 & Hrun & Hid1 & _).
    rewrite Hrun in Hstep. rewrite (bind_ok _ _ _ _ _ Hrun).
    apply IH; [| congruence | exact Hstep].
    intros x Hx. apply Hincl. now right. }
  apply Hloop; [apply incl_refl | reflexivity |].
  exists [Log INFO (DownloadingAssets (id item)); Sign (id item)].
  split; [reflexivity |]. repeat constructor.
Qed.

End DownloadFrame.

(** ** What the handler may do to the outside *)

Section Guarded.
Context {Ext : Type} {D : Deployment Ext}.
Variable P : effect -> Prop.
Variable t0 : list effect.
Hypothesis Plog : forall lv r, P (Log lv r).

Lemma read_config_appends :
  triple (appended (Ext := Ext) P t0) read_config
         (fun cfg s => appended (Ext := Ext) P t0 s /\ task_configuration (event s) = Ok cfg)
         (fun _ s => appended (Ext := Ext) P t0 s).
Proof.
  intros [ev h w t] Hs. unfold read_config, json_dumps. run_monad.
  destruct (Json.dumps (VDict ev)); cbn [event heap world trace fst snd];
    [| exact Hs].
  destruct (task_configuration ev) eqn:Hcfg; [split; [| reflexivity] |];
    appended_close.
Qed.

Lemma on_exception_appends (e : exn) :
  triple (appended (Ext := Ext) P t0) (on_exception e)
         (fun _ _ => False) (fun _ s => appended (Ext := Ext) P t0 s).
Proof.
  intros [ev h w t] Hs. unfold on_exception, ensure_list, extend_at.
  run_monad.
  destruct (Py.mem (KStr "errors") ev);
    cbn [negb event heap world trace fst snd].
  - destruct (Py.get (KStr "errors") ev) as [[] |];
      cbn [event heap world trace fst snd]; appended_close.
  - rewrite PyFacts.get_set_same. cbn [event heap world trace fst snd].
    appended_close.
Qed.

Lemma query_appends (tile date max_items download_assets : value) :
  P (ClientOpen STAC_API_URL API_MODIFIER) ->
  (forall dq, P (Search API_MODIFIER COLLECTION dq tile max_items)) ->
  triple (appended (Ext := Ext) P t0)
         (query_planetary_computer tile date max_items download_assets)
         (fun _ s => appended (Ext := Ext) P t0 s) (fun _ s => appended (Ext := Ext) P t0 s).
Proof.
  intros Hopen Hsearch [ev h w t] Hs. unfold query_planetary_computer.
  run_monad.
  destruct (client_open STAC_API_URL API_MODIFIER w) as [[m | []] w1];
    cbn [event heap world trace fst snd]; [appended_close |].
  destruct (datetime_query date) as [dq | e];
    cbn [event heap world trace fst snd]; [| appended_close].
  specialize (Hsearch dq).
  destruct (search_items API_MODIFIER COLLECTION dq tile max_items h w1)
    as [[[m | items] h1] w2]; cbn [event heap world trace fst snd];
    [appended_close |].
  destruct (Py.truthy download_assets);
    [destruct (Nat.ltb 20 (List.length items)) |];
    cbn [event heap world trace fst snd]; appended_close.
Qed.

Lemma log_appends (lv : level) (r : record) E :
  triple (appended (Ext := Ext) P t0) (log lv r)
         (fun _ s => appended (Ext := Ext) P t0 s) E.
Proof. intros [ev h w t] Hs. run_monad. appended_close. Qed.

Lemma prepare_appends (item : Item) E :
  triple (appended (Ext := Ext) P t0) (prepare_item_for_indexing item)
         (fun _ s => appended (Ext := Ext) P t0 s) E.
Proof.
  intros [ev h w t] Hs. rewrite prepare_run.
  cbn [event heap world trace]. appended_close.
Qed.

(** The loop over the items in metadata-only mode adds nothing to the
    trace. *)
Lemma process_items_metadata_appends (download_assets : value)
      (items : list Item) :
  Py.truthy download_assets = false ->
  forall acc,
    triple (appended (Ext := Ext) P t0) (process_items download_assets items acc)
           (fun _ s => appended (Ext := Ext) P t0 s) (fun _ s => appended (Ext := Ext) P t0 s).
Proof.
  intros Hoff. induction items as [| item rest IH]; intros acc;
    cbn [process_items].
  - now apply triple_ret.
  - rewrite Hoff. eapply triple_bind.
    + apply prepare_appends.
    + intros item'. eapply triple_bind; [| intros feature; apply IH].
      intros s Hs. exact Hs.
Qed.

Lemma ensure_list_appends (k : string) :
  triple (appended (Ext := Ext) P t0) (ensure_list k)
         (fun _ s => appended (Ext := Ext) P t0 s) (fun _ s => appended (Ext := Ext) P t0 s).
Proof.
  intros [ev h w t] Hs. unfold ensure_list. run_monad.
  destruct (Py.mem (KStr k) ev); cbn [negb event heap world trace fst snd];
    appended_close.
Qed.

Lemma extend_at_appends (k method : string) (xs : list value) :
  triple (appended (Ext := Ext) P t0) (extend_at k method xs)
         (fun _ s => appended (Ext := Ext) P t0 s) (fun _ s => appended (Ext := Ext) P t0 s).
Proof.
  intros [ev h w t] Hs. unfold extend_at. run_monad.
  destruct (Py.get (KStr k) ev) as [[] |];
    cbn [event heap world trace fst snd]; appended_close.
Qed.

Lemma respond_appends :
  (forall s3_key body,
      P (PutObject CIRRUS_PAYLOAD_BUCKET s3_key body "application/json")) ->
  triple (appended (Ext := Ext) P t0) respond
         (fun _ s => appended (Ext := Ext) P t0 s) (fun _ s => appended (Ext := Ext) P t0 s).
Proof.
  intros Hput [ev h w t] Hs.
  unfold respond, should_upload_to_s3, upload_payload_to_s3, json_dumps,
    getitem.
  run_monad.
  destruct (Json.dumps (VDict ev)) as [text |];
    cbn [event heap world trace fst snd].
  - destruct (Json.utf8_len text >? threshold)%Z;
      cbn [event heap world trace fst snd]; [| appended_close].
    destruct (bucket_unset CIRRUS_PAYLOAD_BUCKET);
      cbn [event heap world trace fst snd]; [appended_close |].
    destruct (Py.get (KStr "id") ev) as [payload_id |];
      cbn [event heap world trace fst snd]; [| appended_close].
    match goal with
    | |- context [put_object ?b ?key ?bd ?ct w] =>
        pose proof (Hput key bd);
        destruct (put_object b key bd ct w) as [[m | []] w1]
    end; cbn [event heap world trace fst snd]; appended_close.
  - destruct (bucket_unset CIRRUS_PAYLOAD_BUCKET);
      cbn [event heap world trace fst snd]; [appended_close |].
    destruct (Py.get (KStr "id") ev) as [payload_id |];
      cbn [event heap world trace fst snd]; appended_close.
Qed.

(** Lines 77-111 in metadata-only mode. *)
Lemma pipeline_metadata_appends (tile date download_assets max_items : value) :
  Py.truthy download_assets = false ->
  P (ClientOpen STAC_API_URL API_MODIFIER) ->
  (forall dq, P (Search API_MODIFIER COLLECTION dq tile max_items)) ->
  (forall s3_key body,
      P (PutObject CIRRUS_PAYLOAD_BUCKET s3_key body "application/json")) ->
  triple (appended (Ext := Ext) P t0)
         (run_pipeline (tile, date, download_assets, max_items))
         (fun _ s => appended (Ext := Ext) P t0 s) (fun _ s => appended (Ext := Ext) P t0 s).
Proof.
  intros Hoff Hopen Hsearch Hput. unfold run_pipeline.
  eapply triple_bind;
    [apply log_appends | intros ?].
  eapply triple_bind; [now apply query_appends | intros items].
  unfold process_and_respond.
  eapply triple_bind;
    [apply log_appends | intros ?].
  eapply triple_bind;
    [now apply process_items_metadata_appends | intros feats].
  eapply triple_bind; [apply ensure_list_appends | intros ?].
  eapply triple_bind; [apply extend_at_appends | intros ?].
  eapply triple_bind;
    [apply log_appends | intros ?].
  now apply respond_appends.
Qed.

End Guarded.

(** ** The handler: responses, failures and what stays fixed *)

Section HandlerFurther.
Context {Ext : Type} {D : Deployment Ext}.



(** The [except] block never returns. *)
Lemma on_exception_raises (e : exn) (s : State Ext) :
  exists e' s', on_exception e s = (Raise e', s').
Proof.
  pose proof (on_exception_keeps (fun _ => True)
                (Build_effect_invariant _ _ (fun _ _ _ _ _ _ => I)
                                        (fun _ _ _ _ _ _ _ => I))
                e
                (Build_closed_under_updates_of _ _ _
                   (fun _ _ _ _ _ _ => I) (fun _ _ _ _ _ _ _ _ => I))
                s I) as H.
  destruct (on_exception e s) as [[resp | e'] s'];
    [contradiction | now exists e', s'].
Qed.

(** A response of the handler is a response of the [try] block. *)
Lemma handler_returns (st : State Ext) (resp : value) (st' : State Ext) :
  lambda_handler st = (Ok resp, st') -> handler_body st = (Ok resp, st').
Proof.
  unfold lambda_handler, try_except.
  destruct (handler_body st) as [[r | e] s1]; [trivial |].
  destruct (on_exception_raises e s1) as (e' & s' & Hexc).
  rewrite Hexc. discriminate.
Qed.

(** X6. The handler edits the payload at [features] and [errors] only:
    every other key holds at the end, whether the handler returns or
    raises, what it held at the start.  And when the handler returns,
    [errors] too is as it was. *)
Theorem payload_passes_through (st : State Ext) :
  (forall k,
      k <> "features" -> k <> "errors" ->
      Py.get (KStr k) (event (snd (lambda_handler st)))
      = Py.get (KStr k) (event st))
  /\ (forall resp st',
        lambda_handler st = (Ok resp, st') ->
        Py.get (KStr "errors") (event st')
        = Py.get (KStr "errors") (event st)).
Proof.
  split.
  - intros k Hf He.
    pose proof (handler_keeps (holds_at k (Py.get (KStr k) (event st)))
                  (holds_at_effects _ _)
                  (holds_at_closed k "features" _ Hf)
                  (holds_at_closed k "errors" _ He)
                  st eq_refl) as H.
    now destruct (lambda_handler st) as [[resp | e] s].
  - intros resp st' Hrun. apply handler_returns in Hrun.
    pose proof (body_keeps_errors st) as H. now rewrite Hrun in H.
Qed.

Lemma on_exception_not_a_list (e : exn) (s : State Ext) (v : value) :
  Py.get (KStr "errors") (event s) = Some v ->
  (forall l, v <> VList l) ->
  on_exception e s
  = (Raise (no_attribute v "append"),
     emit (Log ERROR (ErrorProcessingPayload (exn_str e))) s).
Proof.
  destruct s as [ev h w t]. cbn [event]. intros Hv Hnl.
  unfold on_exception, ensure_list, extend_at, Py.mem. run_monad.
  rewrite Hv. cbn [negb event heap world trace fst snd]. rewrite Hv.
  destruct v; try reflexivity. now elim (Hnl l).
Qed.

(** X7. When the pipeline raises on a payload whose [errors] is present
    and is not a list ([null], a text, a mapping), the [except] block
    fails at [event["errors"].append]: the handler raises the
    [AttributeError] of the missing method in place of the pipeline's
    exception, and the payload gets no error record; the pipeline's
    exception survives in the log only. *)
Theorem errors_not_a_list (st : State Ext) (e : exn) (st1 : State Ext)
        (v : value) :
  handler_body st = (Raise e, st1) ->
  Py.get (KStr "errors") (event st) = Some v ->
  (forall l, v <> VList l) ->
  lambda_handler st
  = (Raise (no_attribute v "append"),
     emit (Log ERROR (ErrorProcessingPayload (exn_str e))) st1)
  /\ event (snd (lambda_handler st)) = event st1.
Proof.
  intros Hbody Hv Hnl.
  pose proof (body_keeps_errors st) as Herr. rewrite Hbody in Herr.
  unfold holds_at in Herr. cbn [snd] in Herr. rewrite Hv in Herr.
  assert (Hrun : lambda_handler st
                 = (Raise (no_attribute v "append"),
                    emit (Log ERROR (ErrorProcessingPayload (exn_str e)))
                         st1)).
  { unfold lambda_handler, try_except. rewrite Hbody.
    now apply on_exception_not_a_list. }
  split; [exact Hrun | now rewrite Hrun].
Qed.

(** The [except] block touches the payload at [errors], and the trace. *)
Lemma on_exception_frame (e : exn) (s : State Ext) :
  heap (snd (on_exception e s)) = heap s
  /\ world (snd (on_exception e s)) = world s
  /\ (forall k, k <> "errors" ->
                Py.get (KStr k) (event (snd (on_exception e s)))
                = Py.get (KStr k) (event s)).
Proof.
  destruct s as [ev h w t].
  unfold on_exception, ensure_list, extend_at. run_monad.
  destruct (Py.mem (KStr "errors") ev);
    cbn [negb event heap world trace fst snd].
  - destruct (Py.get (KStr "errors") ev) as [[] |];
      cbn [event heap world trace fst snd];
      (split; [reflexivity | split; [reflexivity |]]); intros k Hk;
      try reflexivity.
    now apply PyFacts.get_set_other.
  - rewrite PyFacts.get_set_same. cbn [event heap world trace fst snd].
    split; [reflexivity | split; [reflexivity |]]. intros k Hk.
    now rewrite !PyFacts.get_set_other.
Qed.

(** The reading of the configuration writes to the log and nothing else. *)
Lemma read_config_frame (st : State Ext) :
  event (snd (read_config st)) = event st
  /\ heap (snd (read_config st)) = heap st
  /\ world (snd (read_config st)) = world st.
Proof.
  destruct st as [ev h w t]. unfold read_config, json_dumps. run_monad.
  destruct (Json.dumps (VDict ev)); cbn [event heap world trace fst snd];
    [| now repeat split].
  destruct (task_configuration ev); now repeat split.
Qed.

(** X8. A request that fails before the catalog is asked (the payload
    has no JSON text, the configuration cannot be read, or the tile or
    the date is missing) costs nothing outside: the run only writes log
    records, asks no service, leaves the link objects as they are, and
    changes the payload at [errors] alone. *)
Theorem configuration_failure_is_quiet (st : State Ext) (e : exn)
        (st1 : State Ext) :
  read_config st = (Raise e, st1) ->
  appended is_log (trace st) (snd (lambda_handler st))
  /\ heap (snd (lambda_handler st)) = heap st
  /\ world (snd (lambda_handler st)) = world st
  /\ (forall k, k <> "errors" ->
                Py.get (KStr k) (event (snd (lambda_handler st)))
                = Py.get (KStr k) (event st)).
Proof.
  intros Hcfg.
  assert (Hrun : lambda_handler st = on_exception e st1).
  { unfold lambda_handler, try_except, handler_body.
    now rewrite (bind_raise _ _ _ _ _ Hcfg). }
  rewrite Hrun.
  destruct (read_config_frame st) as (Hev & Hh & Hw).
  rewrite Hcfg in Hev, Hh, Hw. cbn [snd] in Hev, Hh, Hw.
  destruct (on_exception_frame e st1) as (Hh' & Hw' & Hev').
  split; [| split; [congruence | split; [congruence |]]].
  - pose proof (read_config_appends is_log (trace st) (fun _ _ => I) st
                                    (appended_start is_log st)) as H1.
    rewrite Hcfg in H1.
    pose proof (on_exception_appends is_log (trace st) (fun _ _ => I) e
                                     st1 H1) as H2.
    now destruct (on_exception e st1) as [[resp | e'] s'].
  - intros k Hk. now rewrite Hev', Hev.
Qed.

(** The handler on a request whose configuration cannot be read. *)
Lemma unreadable_configuration (st : State Ext) (text : string) (e : exn) :
  sequence_or_absent "errors" (event st) ->
  Json.dumps (VDict (event st)) = Some text ->
  task_configuration (event st) = Raise e ->
  fst (lambda_handler st) = Raise e.
Proof.
  intros Htyped Htext Hcfg.
  assert (Hread : read_config st
                  = (Raise e, emit (Log INFO (ProcessingEvent text)) st)).
  { destruct st as [ev h w t]. cbn [event] in *.
    unfold read_config, json_dumps. run_monad.
    rewrite Htext. cbn [event heap world trace fst snd].
    now rewrite Hcfg. }
  unfold lambda_handler, try_except, handler_body.
  rewrite (bind_raise _ _ _ _ _ Hread).
  rewrite on_exception_run; [reflexivity |].
  now destruct st.
Qed.

(** X9. The errors of a malformed request, on a payload that has a JSON
    text and types [errors] as a sequence: without [process] the handler
    raises [KeyError('process')]; with an empty [process] list,
    [IndexError('list index out of range')]; with a first element of
    [process] that is not a mapping, the [AttributeError] of its missing
    [get]. *)
Theorem malformed_request (st : State Ext) (text : string) :
  sequence_or_absent "errors" (event st) ->
  Json.dumps (VDict (event st)) = Some text ->
  (Py.get (KStr "process") (event st) = None ->
   fst (lambda_handler st) = Raise (KeyError "'process'"))
  /\ (Py.get (KStr "process") (event st) = Some (VList []) ->
      fst (lambda_handler st) = Raise (IndexError "list index out of range"))
  /\ (forall v rest,
         Py.get (KStr "process") (event st) = Some (VList (v :: rest)) ->
         (forall d, v <> VDict d) ->
         fst (lambda_handler st) = Raise (no_attribute v "get")).
Proof.
  intros Htyped Htext.
  split; [| split].
  - intros Hp. apply (unreadable_configuration st text); try assumption.
    unfold task_configuration, getitem. now rewrite Hp.
  - intros Hp. apply (unreadable_configuration st text); try assumption.
    unfold task_configuration, getitem. now rewrite Hp.
  - intros v rest Hp Hv.
    apply (unreadable_configuration st text); try assumption.
    unfold task_configuration, getitem. rewrite Hp.
    cbn [and_then getitem0].
    destruct v; try reflexivity. now elim (Hv d).
Qed.

(** X10. On a well-formed request with a tile and a date, once the catalog
    client has opened and the date has given a [datetime], the handler
    searches the configured collection with that [datetime], the tile of
    the request and the [max_items] of the request, 100 when the request
    gives none; this holds whether the run then returns or raises. *)
Theorem search_arguments (st : State Ext) (text : string) (tc : dict)
        (dq : value) :
  Json.dumps (VDict (event st)) = Some text ->
  task_config_of (event st) = Some tc ->
  Py.truthy (field "tile" tc) = true ->
  Py.truthy (field "date" tc) = true ->
  fst (client_open STAC_API_URL API_MODIFIER (world st)) = inr tt ->
  datetime_query (field "date" tc) = Ok dq ->
  traced (Search API_MODIFIER COLLECTION dq (field "tile" tc)
                 (match Py.get (KStr "max_items") tc with
                  | Some v => v
                  | None => VInt 100
                  end))
         (snd (lambda_handler st)).
Proof.
  intros Htext Htc Htile Hdate Hopen Hdq.
  pose proof (read_config_run st text tc Htext Htc) as Hcfg.
  rewrite Htile, Hdate in Hcfg. cbn [negb orb] in Hcfg.
  set (download_assets := match Py.get (KStr "download_assets") tc with
                          | Some v => v | None => VBool false end) in *.
  set (max_items := match Py.get (KStr "max_items") tc with
                    | Some v => v | None => VInt 100 end) in *.
  set (x := Search API_MODIFIER COLLECTION dq (field "tile" tc) max_items).
  set (s1 := emit (Log INFO (ProcessingTile (field "tile" tc)
                                            (field "date" tc)
                                            download_assets max_items))
                  (emit (Log INFO (ProcessingEvent text)) st)).
  assert (Hbody : handler_body st
                  = bind (query_planetary_computer
                            (field "tile" tc) (field "date" tc) max_items
                            download_assets)
                         (process_and_respond download_assets) s1).
  { unfold handler_body. rewrite (bind_ok _ _ _ _ _ Hcfg).
    unfold run_pipeline. now rewrite bind_log. }
  pose proof (query_passes_datetime (field "tile" tc) (field "date" tc)
                                    max_items download_assets s1) as Hq.
  assert (Hopen1 : fst (client_open STAC_API_URL API_MODIFIER (world s1)) = inr tt).
  { destruct st. exact Hopen. }
  specialize (Hq Hopen1). rewrite Hdq in Hq. fold x in Hq.
  destruct (query_planetary_computer (field "tile" tc) (field "date" tc)
                                     max_items download_assets s1)
    as [[items | e] s2] eqn:Hquery; cbn [snd] in Hq.
  - assert (Hrun : lambda_handler st
                   = try_except (process_and_respond download_assets items)
                                on_exception s2).
    { unfold lambda_handler. apply try_from. rewrite Hbody.
      now apply bind_ok. }
    rewrite Hrun.
    assert (Hkeep : triple (traced (Ext := Ext) x)
                           (try_except
                              (process_and_respond download_assets items)
                              on_exception)
                           (fun _ s => traced x s) (fun _ s => traced x s)).
    { eapply (triple_try _ _ _ _ (fun _ s => traced x s)).
      - eapply triple_weaken.
        + apply (process_and_respond_keeps (traced x) (traced_effects x)).
          apply traced_closed.
        + auto.
        + auto.
        + now intros e s [Hs _].
      - intros e. eapply triple_weaken.
        + apply (on_exception_keeps (traced x) (traced_effects x)).
          apply traced_closed.
        + auto.
        + contradiction.
        + now intros e' s [Hs _]. }
    pose proof (triple_run _ _ _ _ s2 Hkeep Hq) as H.
    now destruct (try_except (process_and_respond download_assets items)
                             on_exception s2) as [[resp | e] s3].
  - assert (Hrun : lambda_handler st = on_exception e s2).
    { unfold lambda_handler, try_except. rewrite Hbody.
      now rewrite (bind_raise _ _ _ _ _ Hquery). }
    rewrite Hrun.
    pose proof (on_exception_keeps (traced x) (traced_effects x) e
                                   (traced_closed "errors" x) s2 Hq) as H.
    destruct (on_exception e s2) as [[resp | e'] s3];
      [contradiction | exact (proj1 H)].
Qed.

(** X11. In metadata-only mode ([download_assets] absent or false in the
    request) a run fetches no URL, stores no asset and calls
    [planetary_computer.sign] on no item, whatever the catalog returns and
    however the run ends.  All it does outside is: write log records, open
    the catalog client at the configured URL with the modifier
    [sign_inplace], search the configured collection through that client
    (the one place where items are signed: the modifier signs what the
    search returns), and store the payload itself, as [application/json],
    into the payload bucket. *)
Theorem metadata_mode_downloads_nothing (st : State Ext) :
  (forall tile date download_assets max_items,
      task_configuration (event st)
      = Ok (tile, date, download_assets, max_items) ->
      Py.truthy download_assets = false) ->
  appended metadata_effect (trace st) (snd (lambda_handler st)).
Proof.
  intros Hmeta.
  assert (Hlog : forall lv r, metadata_effect (Log lv r)) by (intros; exact I).
  pose proof (read_config_appends metadata_effect (trace st) Hlog st
                                  (appended_start metadata_effect st)) as Hread.
  destruct (read_config_frame st) as (Hev & _ & _).
  destruct (read_config st) as [[cfg | e] s1] eqn:Hcfg; cbn [snd] in Hev.
  - destruct Hread as [Hs1 Htask]. rewrite Hev in Htask.
    destruct cfg as [[[tile date] download_assets] max_items].
    specialize (Hmeta _ _ _ _ Htask).
    assert (Hrun : lambda_handler st
                   = try_except
                       (run_pipeline (tile, date, download_assets, max_items))
                       on_exception s1).
    { unfold lambda_handler. apply try_from. unfold handler_body.
      now rewrite (bind_ok _ _ _ _ _ Hcfg). }
    rewrite Hrun.
    assert (Hkeep :
              triple (appended (Ext := Ext) metadata_effect (trace st))
                     (try_except
                        (run_pipeline (tile, date, download_assets, max_items))
                        on_exception)
                     (fun _ s => appended metadata_effect (trace st) s)
                     (fun _ s => appended metadata_effect (trace st) s)).
    { eapply (triple_try _ _ _ _
                         (fun _ s => appended metadata_effect (trace st) s)).
      - apply pipeline_metadata_appends; try assumption.
        + now split.
        + intros dq. now split.
        + intros s3_key body. now split.
      - intros e. eapply triple_weaken.
        + apply (on_exception_appends metadata_effect (trace st) Hlog).
        + auto.
        + contradiction.
        + auto. }
    pose proof (triple_run _ _ _ _ s1 Hkeep Hs1) as H.
    now destruct (try_except
                    (run_pipeline (tile, date, download_assets, max_items))
                    on_exception s1) as [[resp | e] s2].
  - assert (Hrun : lambda_handler st = on_exception e s1).
    { unfold lambda_handler, try_except, handler_body.
      now rewrite (bind_raise _ _ _ _ _ Hcfg). }
    rewrite Hrun.
    pose proof (on_exception_appends metadata_effect (trace st) Hlog e s1 Hread)
      as H.
    now destruct (on_exception e s1) as [[resp | e'] s2].
Qed.

Lemma contains_slash (a b : string) :
  Text.contains "/" (a ++ String "/" b) = true.
Proof.
  induction a as [| c t IH]; [now destruct b |].
  change ((String c t ++ String "/" b)%string)
    with (String c (t ++ String "/" b)).
  cbn [Text.contains]. rewrite IH.
  now destruct (String.prefix "/" (String c (t ++ String "/" b))).
Qed.

(** X12. The [datetime] that lines 150-157 compute is a fixed point of
    them: given back as the date of a request it is passed to the search
    unchanged, since a normalised single date is a range. *)
Theorem datetime_query_fixed_point (date dq : value) :
  datetime_query date = Ok dq -> datetime_query dq = Ok dq.
Proof.
  unfold datetime_query.
  destruct (has_slash date) as [[|] | e] eqn:Hslash; [| | discriminate].
  - intros Hdq. injection Hdq as <-. now rewrite Hslash.
  - destruct date; try discriminate.
    destruct (Datetime.fromisoformat fromisoformat_other s) as [err | start];
      [discriminate |].
    destruct (Datetime.add_one_day start) as [stop |]; [| discriminate].
    intros Hdq. injection Hdq as <-.
    cbn [has_slash]. now rewrite contains_slash.
Qed.

(** X13. Every failure of the catalog query is logged once, with the text
    of the exception, as the last thing the query does, and the exception
    is raised again as it is; it is either the exception of a collaborator
    (the opening of the client, the search) or the one the date raised.
    The query never touches the payload. *)
Theorem query_failure_is_logged (tile date max_items download_assets : value)
        (st : State Ext) (e : exn) (st' : State Ext) :
  query_planetary_computer tile date max_items download_assets st
  = (Raise e, st') ->
  failed_query date e st st'.
Proof.
  destruct st as [ev h w t]. unfold query_planetary_computer, failed_query.
  run_monad.
  destruct (client_open STAC_API_URL API_MODIFIER w) as [[m | []] w1];
    cbn [event heap world trace fst snd].
  - intros H. injection H as <- <-. cbn [event trace].
    split; [reflexivity | split; [now eexists | left; now exists m]].
  - destruct (datetime_query date) as [dq | e0] eqn:Hdq;
      cbn [event heap world trace fst snd].
    + destruct (search_items API_MODIFIER COLLECTION dq tile max_items h w1)
        as [[[m | items] h1] w2]; cbn [event heap world trace fst snd].
      * intros H. injection H as <- <-. cbn [event trace].
        split; [reflexivity | split; [now eexists | left; now exists m]].
      * destruct (Py.truthy download_assets);
          [destruct (Nat.ltb 20 (List.length items)) |];
          cbn [event heap world trace fst snd]; discriminate.
    + intros H. injection H as <- <-. cbn [event trace].
      split; [reflexivity | split; [now eexists | now right]].
Qed.

Lemma features_block_fails (v : value) (xs : list value) {A}
      (k : M (State Ext) A) :
  (forall l, v <> VList l) ->
  triple (holds_at (Ext := Ext) "features" (Some v))
         (ensure_list "features" ;;; extend_at "features" "extend" xs ;;; k)
         (fun _ _ => False)
         (fun _ s => holds_at "features" (Some v) s).
Proof.
  intros Hnl [ev h w t] Hs. unfold holds_at in *. cbn [event] in Hs.
  unfold ensure_list, extend_at, Py.mem. run_monad.
  rewrite Hs. cbn [negb event heap world trace fst snd]. rewrite Hs.
  destruct v; cbn [event heap world trace fst snd]; try exact Hs.
  now elim (Hnl l).
Qed.

(** X14. On a payload whose [features] is present and is not a list the
    handler never returns a response: whatever the services answer it
    raises, and [features] holds at the end what it held at the start. *)
Theorem features_not_a_list (st : State Ext) (v : value) :
  Py.get (KStr "features") (event st) = Some v ->
  (forall l, v <> VList l) ->
  exists e st',
    lambda_handler st = (Raise e, st')
    /\ Py.get (KStr "features") (event st') = Some v.
Proof.
  intros Hv Hnl.
  set (J := holds_at (Ext := Ext) "features" (Some v)).
  assert (HJ : effect_invariant J) by apply holds_at_effects.
  assert (Hall : triple J lambda_handler (fun _ _ => False)
                        (fun _ s => J s)).
  { unfold lambda_handler.
    eapply (triple_try _ _ _ _ (fun _ s => J s)).
    - unfold handler_body.
      eapply (triple_bind _ _ _ (fun _ s => J s)); [| intros cfg].
      { apply (read_config_keeps J HJ). }
      destruct cfg as [[[tile date] download_assets] max_items].
      unfold run_pipeline.
      eapply triple_bind; [apply (log_keeps J HJ) | intros ?].
      eapply (triple_bind _ _ _ (fun _ s => J s)); [| intros items].
      { eapply triple_weaken;
          [apply (query_keeps J HJ) | auto | auto | now intros e s [Hs _]]. }
      unfold process_and_respond.
      eapply triple_bind; [apply (log_keeps J HJ) | intros ?].
      eapply (triple_bind _ _ _ (fun _ s => J s)); [| intros feats].
      { eapply triple_weaken;
          [apply (process_items_keeps J HJ) | auto | auto
          | now intros e s [Hs _]]. }
      now apply features_block_fails.
    - intros e. eapply triple_weaken.
      + apply (on_exception_keeps J HJ e).
        apply holds_at_closed. intros Hne; discriminate Hne.
      + auto.
      + contradiction.
      + now intros e' s [Hs _]. }
  pose proof (triple_run _ _ _ _ st Hall Hv) as H.
  destruct (lambda_handler st) as [[resp | e] st']; cbn [fst snd] in H;
    [contradiction | now exists e, st'].
Qed.

End HandlerFurther.

(** ** The further properties on scripted runs *)

Module FurtherRuns.
Import Scripted Cases.

(** [download_rewrites_hrefs_only] on the item of the catalog, band 4
    being unreachable. *)
Lemma download_rewrites_hrefs_only_witness :
  exists item' st',
    download_and_update_item (D := full) item_a
                             (start download_request b04_down)
    = (Ok item', st')
    /\ id item' = id item_a
    /\ links item' = links item_a
    /\ item_extra item' = item_extra item_a
    /\ Forall2 (rehosted (D := full) (id item_a))
               (assets item_a) (assets item')
    /\ heap st' = heap (start download_request b04_down)
    /\ event st' = event (start download_request b04_down).
Proof.
  eexists. eexists. split; [vm_compute; reflexivity |].
  apply (download_rewrites_hrefs_only (D := full) item_a
           (start download_request b04_down)).
  vm_compute. reflexivity.
Defined.

(** [outage_leaves_item] behind the network that refuses every
    connection. *)
Lemma outage_leaves_item_witness :
  exists st',
    download_and_update_item (D := offline) item_a
                             (start download_request quiet)
    = (Ok item_a, st')
    /\ appended (fun e => match e with
                          | PutObject _ _ _ _ => False
                          | _ => True
                          end)
                (trace (start download_request quiet)) st'.
Proof.
  apply (outage_leaves_item (D := offline) item_a
           (start download_request quiet)
           (fun url w =>
              ex_intro _ ("Connection refused: " ++ url)
                       (ex_intro _ w eq_refl))
           (set_assets item_a (map sign_asset (assets item_a))) quiet).
  reflexivity.
Defined.

(** [download_effects] on the item of the catalog. *)
Lemma download_effects_witness :
  appended (asset_effect (D := full) (id item_a)
                         (map sign_asset (assets item_a)))
           (trace (start download_request b04_down))
           (snd (download_and_update_item (D := full) item_a
                   (start download_request b04_down))).
Proof.
  apply (download_effects (D := full) item_a
           (start download_request b04_down)
           (set_assets item_a (map sign_asset (assets item_a))) b04_down).
  reflexivity.
Defined.


(** [errors_not_a_list] on the request without a tile whose [errors] is
    [null]: the validation's [ValueError] is replaced. *)
Lemma errors_not_a_list_witness :
  fst (lambda_handler (D := full) (start errors_null_request quiet))
  = Raise (AttributeError "'NoneType' object has no attribute 'append'").
Proof.
  destruct (errors_not_a_list (D := full)
              (start errors_null_request quiet) config_error
              (snd (handler_body (D := full)
                      (start errors_null_request quiet)))
              VNone) as [H _].
  - vm_compute. reflexivity.
  - reflexivity.
  - intros l Hl. discriminate Hl.
  - rewrite H. reflexivity.
Defined.

(** [configuration_failure_is_quiet] on the request without a tile. *)
Lemma configuration_failure_is_quiet_witness :
  appended is_log (trace (start empty_tile_request quiet))
           (snd (lambda_handler (D := full)
                   (start empty_tile_request quiet))).
Proof.
  apply (configuration_failure_is_quiet (D := full)
           (start empty_tile_request quiet) config_error
           (snd (read_config (start empty_tile_request quiet)))).
  vm_compute. reflexivity.
Defined.

(** [malformed_request] on the request without [process]. *)
Lemma malformed_request_witness :
  fst (lambda_handler (D := full) (start no_process_request quiet))
  = Raise (KeyError "'process'").
Proof.
  destruct (malformed_request (D := full)
              (start no_process_request quiet)
              (text_of no_process_request)) as [H _].
  - left. reflexivity.
  - vm_compute. reflexivity.
  - apply H. reflexivity.
Defined.

(** [search_arguments] on the request that leaves [max_items] to its
    default. *)
Lemma search_arguments_witness :
  traced (Search sign_inplace "sentinel-2-l2a"
                 (VStr "2024-06-01T00:00:00/2024-06-02T00:00:00")
                 (VStr "33UUP") (VInt 100))
         (snd (lambda_handler (D := full) (start default_request quiet))).
Proof.
  apply (search_arguments (D := full) (start default_request quiet)
           (text_of default_request) default_task
           (VStr "2024-06-01T00:00:00/2024-06-02T00:00:00"));
    vm_compute; reflexivity.
Defined.

(** [metadata_mode_downloads_nothing] on the metadata-only request. *)
Lemma metadata_mode_downloads_nothing_witness :
  appended (metadata_effect (D := full))
           (trace (start metadata_request quiet))
           (snd (lambda_handler (D := full) (start metadata_request quiet))).
Proof.
  apply (metadata_mode_downloads_nothing (D := full)
           (start metadata_request quiet)).
  intros tile date download_assets max_items H.
  vm_compute in H. inversion H. reflexivity.
Defined.

(** [datetime_query_fixed_point] on the range of 1 June 2024. *)
Lemma datetime_query_fixed_point_witness :
  datetime_query (D := full)
                 (VStr "2024-06-01T00:00:00/2024-06-02T00:00:00")
  = Ok (VStr "2024-06-01T00:00:00/2024-06-02T00:00:00").
Proof.
  apply (datetime_query_fixed_point (D := full) (VStr "2024-06-01")).
  vm_compute. reflexivity.
Defined.

(** [query_failure_is_logged] on a date that is no date. *)
Lemma query_failure_is_logged_witness :
  failed_query (D := full) (VStr "June")
               (ValueError "Invalid isoformat string: 'June'")
               (start metadata_request quiet)
               (snd (query_planetary_computer
                       (D := full) (VStr "33UUP") (VStr "June") (VInt 5)
                       (VBool false) (start metadata_request quiet))).
Proof.
  apply (query_failure_is_logged (D := full) (VStr "33UUP") (VStr "June")
           (VInt 5) (VBool false)).
  vm_compute. reflexivity.
Defined.

(** [features_not_a_list] on the request whose [features] is a text. *)
Lemma features_not_a_list_witness :
  exists e st',
    lambda_handler (D := full) (start features_text_request quiet)
    = (Raise e, st')
    /\ Py.get (KStr "features") (event st') = Some (VStr "none").
Proof.
  apply (features_not_a_list (D := full)
           (start features_text_request quiet) (VStr "none")).
  - reflexivity.
  - intros l Hl. discriminate Hl.
Defined.

End FurtherRuns.
